(** * SystemTemplateHook: per-instance system-template override

    A shallow embedding of [sweagent/agent/hooks/system_template_hook.py].

    The hook is stateful Python: it mutates the agent it is handed, keeps one
    boolean of its own, writes log records, and relies on exceptions for
    control flow.  The embedding therefore runs every method in a small
    state-and-exception monad whose state survives a raised exception, as
    Python's does: an assignment made before a [raise] is still there when
    the [except] clause runs. *)

From Stdlib Require Import String Ascii List NArith ZArith Bool Lia.
Import ListNotations.

Set Implicit Arguments.
Set Warnings "-register-all".

(* ===================================================================== *)
(** * Python strings *)
(* ===================================================================== *)

(** A Python [str] is a sequence of Unicode code points. *)
Module PyStr.

Definition t : Type := list N.

(** Literals of the source are ASCII; this reads them from a Rocq string. *)
Definition of_string (s : string) : t :=
  map N_of_ascii (list_ascii_of_string s).

Definition eq_dec : forall a b : t, {a = b} + {a <> b} :=
  list_eq_dec N.eq_dec.

Definition eqb (a b : t) : bool := if eq_dec a b then true else false.

(** [str.isspace] on one code point: the ASCII table of CPython
    (TAB..CR, FS..US, SPACE) and the non-ASCII characters of bidirectional
    type WS, B or S, or of category Zs. *)
Definition isspace (c : N) : bool :=
  (((9 <=? c) && (c <=? 13)) || ((28 <=? c) && (c <=? 32))
   || (c =? 133) || (c =? 160) || (c =? 5760)
   || ((8192 <=? c) && (c <=? 8202))
   || (c =? 8232) || (c =? 8233) || (c =? 8239) || (c =? 8287)
   || (c =? 12288))%N.

(** [s.lstrip()] *)
Fixpoint lstrip (s : t) : t :=
  match s with
  | [] => []
  | c :: rest => if isspace c then lstrip rest else s
  end.

(** [s.rstrip()] *)
Definition rstrip (s : t) : t := rev (lstrip (rev s)).

(** [s.strip()] *)
Definition strip (s : t) : t := rstrip (lstrip s).

(** Truth value of a string: [bool(s)]. *)
Definition truthy (s : t) : bool :=
  match s with [] => false | _ :: _ => true end.

(** The first and the last character of a non-empty string. *)
Definition first (s : t) : option N := hd_error s.
Definition final (s : t) : option N := hd_error (rev s).

Definition starts_with_space (s : t) : bool :=
  match first s with Some c => isspace c | None => false end.

Definition ends_with_space (s : t) : bool :=
  match final s with Some c => isspace c | None => false end.

(** No whitespace at either end. *)
Definition trimmed (s : t) : bool :=
  negb (starts_with_space s) && negb (ends_with_space s).

(** Every character is whitespace (the empty string included). *)
Definition whitespace_only (s : t) : bool := forallb isspace s.

End PyStr.

Definition str : string -> PyStr.t := PyStr.of_string.

(* ===================================================================== *)
(** * Python values and exceptions *)
(* ===================================================================== *)

(** The objects [yaml.safe_load] can build, which are also the values an
    attribute of the agent may hold.  A dict is kept as its items in
    insertion order; its keys are any hashable value. *)
Inductive pyobj : Type :=
| PNone
| PBool (b : bool)
| PInt (z : Z)
| PFloat (bits : N)
| PStr (s : PyStr.t)
| PBytes (b : list N)
| PDate (iso : PyStr.t)
| PList (items : list pyobj)
| PTuple (items : list pyobj)
| PSet (items : list pyobj)
| PDict (items : list (pyobj * pyobj)).

(** The exception classes that can arise; all derive from [Exception]. *)
Inductive exn : Type :=
| KeyError
| TypeError
| AttributeError
| OSError
| UnicodeDecodeError
| YAMLError.

Inductive result (A : Type) : Type :=
| Ok (a : A)
| Raise (e : exn).

Arguments Ok {A} a.
Arguments Raise {A} e.

(** [d[key]] on the items of a dict, for a string key: a string equals only
    a string with the same code points, so keys of other types never match. *)
Fixpoint dict_get (items : list (pyobj * pyobj)) (key : PyStr.t)
  : option pyobj :=
  match items with
  | [] => None
  | (PStr k, v) :: rest =>
      if PyStr.eqb k key then Some v else dict_get rest key
  | _ :: rest => dict_get rest key
  end.

(** [current[key]] for a string key: a dict answers or raises [KeyError];
    every other value raises [TypeError] (not subscriptable, or indices must
    be integers). *)
Definition subscript (current : pyobj) (key : PyStr.t) : result pyobj :=
  match current with
  | PDict items =>
      match dict_get items key with
      | Some v => Ok v
      | None => Raise KeyError
      end
  | _ => Raise TypeError
  end.

(** [len(v)]: defined on the sized builtins, [TypeError] elsewhere. *)
Definition py_len (v : pyobj) : result nat :=
  match v with
  | PStr s => Ok (length s)
  | PBytes b => Ok (length b)
  | PList l | PTuple l | PSet l => Ok (length l)
  | PDict items => Ok (length items)
  | PNone | PBool _ | PInt _ | PFloat _ | PDate _ => Raise TypeError
  end.

(* ===================================================================== *)
(** * The hook, the agent and the world they live in *)
(* ===================================================================== *)

(** [pathlib.Path]: [directory / name]. *)
Record path : Type := Path { directory : PyStr.t; name : PyStr.t }.

(** What the template file is at the moment [on_init] runs.

    - [StatFails e]: [template_file.exists()] itself raises [e].
      [Path.exists] answers [False] when [stat] fails with ENOENT, ENOTDIR,
      EBADF or ELOOP and re-raises every other [OSError]: a name longer than
      the system allows (no file of that name can exist), a directory that
      may not be searched.
    - [FileAbsent]: [exists()] answers [False].
    - [FileLoads document]: [exists()] answers [True] and the file loads to
      [document].
    - [FileFails e]: [exists()] answers [True] and [e] is raised while the
      file is opened, read, decoded or parsed. *)
Inductive file_state : Type :=
| StatFails (e : exn)
| FileAbsent
| FileLoads (document : pyobj)
| FileFails (e : exn).

Definition filesystem : Type := path -> file_state.

(** The instance attributes of [SystemTemplateHook] ([self.logger] is the
    log of the world below). *)
Record SystemTemplateHook : Type := Hook {
  instance_id : PyStr.t;
  instance_templates_dir : PyStr.t;
  template_loaded : bool
}.

(** [agent.templates]: [system_template] is [None] when the object has no
    such attribute, and otherwise holds whatever value was assigned. *)
Record templates_holder : Type := Templates {
  system_template : option pyobj
}.

(** The agent: [templates] is [None] when the attribute is missing.
    Attributes are plain instance attributes, so one that exists can be
    assigned. *)
Record Agent : Type := MkAgent {
  templates : option templates_holder
}.

Inductive level : Type := DEBUG | INFO | WARNING | ERROR.

(** The log lines of the source, by content. *)
Inductive message : Type :=
| NoTemplateFile (id : PyStr.t) (file : path)
| LoadingTemplate (id : PyStr.t) (file : path)
| TemplateApplied (id : PyStr.t)
| TemplateLengths (original new : nat)
| NoTemplatesAttribute
| NoValidTemplate (file : path)
| LoadError (id : PyStr.t) (e : exn)
| FoundAtPath (keys : list PyStr.t)
| NotFoundAnywhere
| UsingCustomTemplate (id : PyStr.t).

(** What a run does to the outside, in order: log records, and assignments
    to [agent.templates.system_template]. *)
Inductive effect : Type :=
| Log (lvl : level) (msg : message)
| Assign (value : PyStr.t).

Record world : Type := World {
  hook : SystemTemplateHook;
  agent : Agent;
  trace : list effect
}.

(* ===================================================================== *)
(** * The monad: state that survives exceptions *)
(* ===================================================================== *)

Definition M (A : Type) : Type := world -> result A * world.

Definition ret {A} (a : A) : M A := fun w => (Ok a, w).

Definition bind {A B} (m : M A) (k : A -> M B) : M B :=
  fun w =>
    match m w with
    | (Ok a, w') => k a w'
    | (Raise e, w') => (Raise e, w')
    end.

Definition raise {A} (e : exn) : M A := fun w => (Raise e, w).

(** A pure computation that may raise. *)
Definition lift {A} (r : result A) : M A := fun w => (r, w).

(** [try: body / except <classes> as e: handler e]. *)
Definition try_except {A} (body : M A) (classes : exn -> bool)
    (handler : exn -> M A) : M A :=
  fun w =>
    match body w with
    | (Ok a, w') => (Ok a, w')
    | (Raise e, w') => if classes e then handler e w' else (Raise e, w')
    end.

Declare Scope py_scope.
Delimit Scope py_scope with py.
Notation "x <- c ;; k" := (bind c (fun x => k))
  (at level 61, c at next level, right associativity) : py_scope.
Notation "c ;; k" := (bind c (fun _ => k))
  (at level 61, right associativity) : py_scope.
Open Scope py_scope.

Definition get_hook : M SystemTemplateHook := fun w => (Ok (hook w), w).
Definition get_agent : M Agent := fun w => (Ok (agent w), w).

(** [self.logger.<lvl>(msg)] *)
Definition log (lvl : level) (msg : message) : M unit :=
  fun w => (Ok tt, World (hook w) (agent w) (trace w ++ [Log lvl msg])).

(** [agent.templates.system_template], read. *)
Definition read_system_template : M pyobj :=
  fun w =>
    match templates (agent w) with
    | Some holder =>
        match system_template holder with
        | Some v => (Ok v, w)
        | None => (Raise AttributeError, w)
        end
    | None => (Raise AttributeError, w)
    end.

(** [agent.templates.system_template = value]; the assignment is recorded
    in the trace. *)
Definition assign_system_template (value : PyStr.t) : M unit :=
  fun w =>
    match templates (agent w) with
    | Some _ =>
        (Ok tt,
         World (hook w)
               (MkAgent (Some (Templates (Some (PStr value)))))
               (trace w ++ [Assign value]))
    | None => (Raise AttributeError, w)
    end.

(** [self.template_loaded = True] *)
Definition set_template_loaded : M unit :=
  fun w =>
    (Ok tt,
     World (Hook (instance_id (hook w)) (instance_templates_dir (hook w)) true)
           (agent w) (trace w)).

(* ===================================================================== *)
(** * The methods of [SystemTemplateHook] *)
(* ===================================================================== *)

(** [__init__]: stores its arguments; the flag starts false and the file
    system is not touched. *)
Definition __init__ (instance_id instance_templates_dir : PyStr.t)
  : SystemTemplateHook :=
  Hook instance_id instance_templates_dir false.

(** [paths_to_try] of [_extract_system_template]. *)
Definition paths_to_try : list (list PyStr.t) :=
  [ [str "agent"; str "templates"; str "system_template"];
    [str "templates"; str "system_template"];
    [str "system_template"];
    [str "agent"; str "system_template"] ].

(** The inner loop [for key in path: current = current[key]]. *)
Fixpoint descend (current : pyobj) (keys : list PyStr.t) : result pyobj :=
  match keys with
  | [] => Ok current
  | key :: rest =>
      match subscript current key with
      | Ok v => descend v rest
      | Raise e => Raise e
      end
  end.

(** [except (KeyError, TypeError)] *)
Definition KeyError_or_TypeError (e : exn) : bool :=
  match e with KeyError | TypeError => true | _ => false end.

(** [except Exception] *)
Definition Exception (e : exn) : bool := true.

(** One iteration of the outer loop: [Some s] when the body executes
    [return s], [None] when it falls through or the [except] clause runs
    [continue]. *)
Definition try_path (config : pyobj) (keys : list PyStr.t)
  : M (option PyStr.t) :=
  try_except
    (current <- lift (descend config keys) ;;
     match current with
     | PStr s =>
         if PyStr.truthy (PyStr.strip s)
         then log DEBUG (FoundAtPath keys) ;; ret (Some (PyStr.strip s))
         else ret None
     | _ => ret None
     end)
    KeyError_or_TypeError
    (fun _ => ret None).

(** [for path in paths: ...] followed by the final [return ""]. *)
Fixpoint extract_from (paths : list (list PyStr.t)) (config : pyobj)
  : M PyStr.t :=
  match paths with
  | [] => log DEBUG NotFoundAnywhere ;; ret []
  | keys :: rest =>
      found <- try_path config keys ;;
      match found with
      | Some s => ret s
      | None => extract_from rest config
      end
  end.

Definition _extract_system_template (config : pyobj) : M PyStr.t :=
  extract_from paths_to_try config.

(** [self.instance_templates_dir / f"{self.instance_id}.yaml"] *)
Definition template_file_of (self : SystemTemplateHook) : path :=
  Path (instance_templates_dir self) (instance_id self ++ str ".yaml").

(** [template_file.exists()]: an answer, or the exception of [stat]. *)
Definition file_exists (fs : filesystem) (p : path) : result bool :=
  match fs p with
  | StatFails e => Raise e
  | FileAbsent => Ok false
  | FileLoads _ | FileFails _ => Ok true
  end.

(** [with open(template_file) as f: yaml.safe_load(f)] *)
Definition load_yaml (fs : filesystem) (p : path) : M pyobj :=
  match fs p with
  | FileLoads document => ret document
  | FileFails e => raise e
  | FileAbsent => raise OSError
  | StatFails e => raise e
  end.

(** [hasattr(agent, 'templates') and hasattr(agent.templates,
    'system_template')] *)
Definition has_system_template (a : Agent) : bool :=
  match templates a with
  | Some holder =>
      match system_template holder with Some _ => true | None => false end
  | None => false
  end.

(** The call [template_file.exists()] of line 44 stands before the [try]:
    what it raises reaches the caller. *)
Definition on_init (fs : filesystem) : M unit :=
  self <- get_hook ;;
  let template_file := template_file_of self in
  found <- lift (file_exists fs template_file) ;;
  if negb found then
    log INFO (NoTemplateFile (instance_id self) template_file)
  else
    try_except
      (log INFO (LoadingTemplate (instance_id self) template_file) ;;
       template_config <- load_yaml fs template_file ;;
       system_template <- _extract_system_template template_config ;;
       if PyStr.truthy system_template then
         a <- get_agent ;;
         if has_system_template a then
           original_template <- read_system_template ;;
           assign_system_template system_template ;;
           set_template_loaded ;;
           log INFO (TemplateApplied (instance_id self)) ;;
           original_length <- lift (py_len original_template) ;;
           log DEBUG (TemplateLengths original_length (length system_template))
         else
           log WARNING NoTemplatesAttribute
       else
         log WARNING (NoValidTemplate template_file))
      Exception
      (fun e => log ERROR (LoadError (instance_id self) e)).

(** [messages] is any sized sequence; only its length is looked at. *)
Definition on_model_query (messages : list pyobj) (instance_id_arg : PyStr.t)
  : M unit :=
  self <- get_hook ;;
  if template_loaded self && (length messages =? 1)%nat then
    log INFO (UsingCustomTemplate (instance_id self))
  else
    ret tt.

(** The callbacks the host runtime invokes on one hook, each with the file
    system as it is at that moment. *)
Inductive call : Type :=
| OnInit (fs : filesystem)
| OnModelQuery (messages : list pyobj) (instance_id_arg : PyStr.t).

Definition invoke (c : call) : M unit :=
  match c with
  | OnInit fs => on_init fs
  | OnModelQuery messages id => on_model_query messages id
  end.

(** A sequence of callbacks; an exception that escapes one would end the
    run there. *)
Fixpoint run (calls : list call) : M unit :=
  match calls with
  | [] => ret tt
  | c :: rest => invoke c ;; run rest
  end.

(** The assignments to the agent's template recorded in a trace. *)
Fixpoint assignments (t : list effect) : list PyStr.t :=
  match t with
  | [] => []
  | Assign v :: rest => v :: assignments rest
  | Log _ _ :: rest => assignments rest
  end.

(** The value of [agent.templates.system_template], if the path exists. *)
Definition template_of (a : Agent) : option pyobj :=
  match templates a with
  | Some holder => system_template holder
  | None => None
  end.

(* ===================================================================== *)
(** * Vocabulary of the properties *)
(* ===================================================================== *)

(** The document holds a string with non-whitespace content at a key-path:
    the descent goes through and ends on such a string. *)
Definition yields (config : pyobj) (keys : list PyStr.t) (s : PyStr.t)
  : Prop :=
  descend config keys = Ok (PStr s) /\ PyStr.strip s <> [].

(** A key-path is a miss when it yields nothing: the descent fails, or ends
    on a value that is not a string, or on a string that is empty or all
    whitespace. *)
Definition misses (config : pyobj) (keys : list PyStr.t) : Prop :=
  forall s, ~ yields config keys s.

(** What one key-path contributes, as a value. *)
Definition usable (config : pyobj) (keys : list PyStr.t)
  : option PyStr.t :=
  match descend config keys with
  | Ok (PStr s) =>
      if PyStr.truthy (PyStr.strip s) then Some (PyStr.strip s) else None
  | _ => None
  end.

(** The contribution of the first key-path that has one. *)
Fixpoint first_usable (paths : list (list PyStr.t)) (config : pyobj)
  : option PyStr.t :=
  match paths with
  | [] => None
  | keys :: rest =>
      match usable config keys with
      | Some s => Some s
      | None => first_usable rest config
      end
  end.

(** The result of the extraction: the first usable value, or the empty
    string. *)
Definition extracted (paths : list (list PyStr.t)) (config : pyobj)
  : PyStr.t :=
  match first_usable paths config with Some s => s | None => [] end.

(** [w'] differs from [w] by log records only. *)
Definition logs_only (w w' : world) : Prop :=
  hook w' = hook w /\ agent w' = agent w /\
  exists t, trace w' = trace w ++ t /\ assignments t = [].

(** [w'] is [w] after one assignment of [s] to the agent's template, the
    flag raised, and log records. *)
Definition applied (s : PyStr.t) (w w' : world) : Prop :=
  template_loaded (hook w') = true /\
  instance_id (hook w') = instance_id (hook w) /\
  instance_templates_dir (hook w') = instance_templates_dir (hook w) /\
  template_of (agent w') = Some (PStr s) /\
  exists t, trace w' = trace w ++ t /\ assignments t = [s].

(** The override [on_init] is going to apply in world [w], if any. *)
Definition override_for (fs : filesystem) (w : world) : option PyStr.t :=
  match fs (template_file_of (hook w)) with
  | FileLoads document =>
      if has_system_template (agent w)
      then first_usable paths_to_try document
      else None
  | _ => None
  end.

(** How a call of [on_init] ends: with the exception of
    [template_file.exists()] when that raises, and normally otherwise. *)
Definition on_init_result (fs : filesystem) (w : world) : result unit :=
  match fs (template_file_of (hook w)) with
  | StatFails e => Raise e
  | _ => Ok tt
  end.

(** How a sequence of callbacks on a hook whose file is [p] ends: with the
    exception of the first [on_init] whose [exists()] raises, where the
    sequence stops, and normally when there is none. *)
Fixpoint run_result (p : path) (calls : list call) : result unit :=
  match calls with
  | [] => Ok tt
  | OnInit fs :: rest =>
      match fs p with
      | StatFails e => Raise e
      | _ => run_result p rest
      end
  | OnModelQuery _ _ :: rest => run_result p rest
  end.

(** [template_file.exists()] answers, [True] or [False]. *)
Definition exists_answers (fs : filesystem) (w : world) : Prop :=
  exists found, file_exists fs (template_file_of (hook w)) = Ok found.

(** The ways [on_init] can end without an override, before any assignment:
    a file [exists()] does not find, a file that fails to load or parse, a document in which every
    key-path misses, an agent without the attribute path. *)
Definition failure_mode (fs : filesystem) (w : world) : Prop :=
  fs (template_file_of (hook w)) = FileAbsent
  \/ (exists e, fs (template_file_of (hook w)) = FileFails e)
  \/ (exists document,
        fs (template_file_of (hook w)) = FileLoads document
        /\ Forall (misses document) paths_to_try)
  \/ template_of (agent w) = None.

(** How many of the calls are [on_init]. *)
Fixpoint count_on_init (calls : list call) : nat :=
  match calls with
  | [] => 0
  | OnInit _ :: rest => S (count_on_init rest)
  | OnModelQuery _ _ :: rest => count_on_init rest
  end.

(** The document that spells one key-path out: nested one-entry mappings
    down to a leaf, as in [{agent: {templates: {system_template: leaf}}}]. *)
Fixpoint nest (keys : list PyStr.t) (leaf : pyobj) : pyobj :=
  match keys with
  | [] => leaf
  | key :: rest => PDict [(PStr key, nest rest leaf)]
  end.

(** The value of the last assignment recorded in a trace. *)
Definition last_assigned (t : list effect) : option PyStr.t :=
  hd_error (rev (assignments t)).

(** The record [on_model_query] writes. *)
Definition is_using_record (e : effect) : bool :=
  match e with
  | Log _ (UsingCustomTemplate _) => true
  | _ => false
  end.

(** The three keys the key-paths start with. *)
Definition root_keys : list PyStr.t :=
  [str "agent"; str "templates"; str "system_template"].

(* ===================================================================== *)
(** * Concrete scenarios *)
(* ===================================================================== *)

Module Scenario.

Definition path_eqb (p q : path) : bool :=
  PyStr.eqb (directory p) (directory q) && PyStr.eqb (name p) (name q).

(** A file system holding one file. *)
Definition single_file (p : path) (content : file_state) : filesystem :=
  fun q => if path_eqb q p then content else FileAbsent.

Definition no_files : filesystem := fun _ => FileAbsent.

Definition task_42 : SystemTemplateHook :=
  __init__ (str "task-42") (str "instance_templates").

Definition task_42_yaml : path :=
  Path (str "instance_templates") (str "task-42.yaml").

(** [{templates: {system_template: "  You are a careful reviewer. "},
      system_template: "unused"}] *)
Definition reviewer : pyobj :=
  PDict
    [ (PStr (str "templates"),
       PDict [ (PStr (str "system_template"),
                PStr (str "  You are a careful reviewer. ")) ]);
      (PStr (str "system_template"), PStr (str "unused")) ].

(** [{system_template: "Be terse."}] *)
Definition terse : pyobj :=
  PDict [ (PStr (str "system_template"), PStr (str "Be terse.")) ].

(** [{agent: {system_template: 7}, system_template: "   "}] *)
Definition unusable_document : pyobj :=
  PDict
    [ (PStr (str "agent"),
       PDict [ (PStr (str "system_template"), PInt 7) ]);
      (PStr (str "system_template"), PStr (str "   ")) ].

(** An agent whose template is the string ["default"]. *)
Definition default_agent : Agent :=
  MkAgent (Some (Templates (Some (PStr (str "default"))))).

(** An agent whose [templates.system_template] is [None]. *)
Definition unset_agent : Agent :=
  MkAgent (Some (Templates (Some PNone))).

(** An agent without [templates]. *)
Definition bare_agent : Agent := MkAgent None.

Definition start (a : Agent) : world := World task_42 a [].

(** The template directory holding [task-42.yaml] with the [reviewer]
    document. *)
Definition reviewer_files : filesystem :=
  single_file task_42_yaml (FileLoads reviewer).

End Scenario.

(* ===================================================================== *)
(** * Facts about [strip] *)
(* ===================================================================== *)

Section StripFacts.

Import PyStr.

Lemma lstrip_first (s : t) (c : N) :
  first (lstrip s) = Some c -> isspace c = false.
Proof.
  induction s as [|x s IH]; simpl; [discriminate|].
  destruct (isspace x) eqn:Hx; [exact IH|].
  simpl. intros [= <-]. exact Hx.
Qed.

Lemma lstrip_fixed (s : t) :
  (forall c, first s = Some c -> isspace c = false) -> lstrip s = s.
Proof.
  destruct s as [|x s]; [reflexivity|].
  intros H. simpl. now rewrite (H x eq_refl).
Qed.

(** What [lstrip] removes is a prefix. *)
Lemma lstrip_suffix (s : t) : exists spaces, s = spaces ++ lstrip s.
Proof.
  induction s as [|x s [spaces IH]]; [now exists []|].
  simpl. destruct (isspace x).
  - exists (x :: spaces). simpl. now f_equal.
  - now exists [].
Qed.

(** What [rstrip] removes is a suffix. *)
Lemma rstrip_prefix (s : t) : exists spaces, s = rstrip s ++ spaces.
Proof.
  unfold rstrip. destruct (lstrip_suffix (rev s)) as [spaces H].
  exists (rev spaces).
  rewrite <- rev_app_distr, <- H. symmetry. apply rev_involutive.
Qed.

Lemma rstrip_final (s : t) (c : N) :
  final (rstrip s) = Some c -> isspace c = false.
Proof.
  unfold final, rstrip. rewrite rev_involutive. apply lstrip_first.
Qed.

Lemma rstrip_first (s : t) (c : N) :
  first (rstrip s) = Some c -> first s = Some c.
Proof.
  destruct (rstrip_prefix s) as [spaces H].
  destruct (rstrip s) as [|x r]; [discriminate|].
  rewrite H. trivial.
Qed.

Lemma strip_trimmed (s : t) : trimmed (strip s) = true.
Proof.
  unfold trimmed, starts_with_space, ends_with_space.
  apply andb_true_intro; split; apply negb_true_iff.
  - destruct (first (strip s)) as [c|] eqn:H; [|reflexivity].
    apply (lstrip_first s). now apply rstrip_first.
  - destruct (final (strip s)) as [c|] eqn:H; [|reflexivity].
    now apply (rstrip_final (lstrip s)).
Qed.

Lemma trimmed_strip (s : t) : trimmed s = true -> strip s = s.
Proof.
  unfold trimmed, starts_with_space, ends_with_space.
  intros H. apply andb_prop in H. destruct H as [Hfirst Hfinal].
  apply negb_true_iff in Hfirst, Hfinal.
  unfold strip, rstrip.
  rewrite (lstrip_fixed s).
  - rewrite (lstrip_fixed (rev s)); [apply rev_involutive|].
    intros c Hc. unfold final in Hfinal. unfold first in Hc.
    now rewrite Hc in Hfinal.
  - intros c Hc. now rewrite Hc in Hfirst.
Qed.

Lemma strip_idempotent (s : t) : strip (strip s) = strip s.
Proof. apply trimmed_strip, strip_trimmed. Qed.

Lemma whitespace_only_strip (s : t) :
  whitespace_only s = true -> strip s = [].
Proof.
  intros H. unfold strip.
  assert (Hl : lstrip s = []).
  { induction s as [|c s IH]; [reflexivity|].
    simpl in H. apply andb_prop in H. destruct H as [Hc Hs].
    simpl. rewrite Hc. now apply IH. }
  now rewrite Hl.
Qed.

Lemma truthy_nonempty (s : t) : truthy s = true <-> s <> [].
Proof. destruct s; simpl; split; congruence. Qed.

End StripFacts.

(* ===================================================================== *)
(** * Running the monad *)
(* ===================================================================== *)

Lemma logs_only_refl (w : world) : logs_only w w.
Proof.
  repeat split. exists []. now rewrite app_nil_r.
Qed.

Lemma assignments_app (t1 t2 : list effect) :
  assignments (t1 ++ t2) = assignments t1 ++ assignments t2.
Proof.
  induction t1 as [|[lvl msg|v] t1 IH]; simpl; [reflexivity|exact IH|].
  now f_equal.
Qed.

Lemma logs_only_trans (w1 w2 w3 : world) :
  logs_only w1 w2 -> logs_only w2 w3 -> logs_only w1 w3.
Proof.
  intros (Hh & Ha & t & Ht & Hn) (Hh' & Ha' & t' & Ht' & Hn').
  repeat split; [congruence|congruence|].
  exists (t ++ t'). rewrite Ht', Ht, app_assoc, assignments_app, Hn, Hn'.
  now split.
Qed.

Lemma log_logs_only (lvl : level) (msg : message) (w : world) :
  logs_only w (snd (log lvl msg w)).
Proof.
  repeat split. now exists [Log lvl msg].
Qed.

Lemma applied_then_logs (s : PyStr.t) (w1 w2 w3 : world) :
  applied s w1 w2 -> logs_only w2 w3 -> applied s w1 w3.
Proof.
  intros (Hl & Hi & Hd & Ha & t & Ht & Hn) (Hh' & Ha' & t' & Ht' & Hn').
  unfold applied. rewrite Hh', Ha'. repeat split; trivial.
  exists (t ++ t'). rewrite Ht', Ht, app_assoc, assignments_app, Hn, Hn'.
  now split.
Qed.

Lemma bind_ok {A B} (m : M A) (k : A -> M B) (w w' : world) (a : A) :
  m w = (Ok a, w') -> bind m k w = k a w'.
Proof. unfold bind. now intros ->. Qed.

Lemma bind_raise {A B} (m : M A) (k : A -> M B) (w w' : world) (e : exn) :
  m w = (Raise e, w') -> bind m k w = (Raise e, w').
Proof. unfold bind. now intros ->. Qed.

(** A [try] whose handler catches every exception and only logs it returns
    normally, in the world the body left or that world with one more log
    record. *)
Lemma try_except_log (body : M unit) (lvl : level) (msg : exn -> message)
    (w w' : world) (r : result unit) :
  body w = (r, w') ->
  exists w'', try_except body Exception (fun e => log lvl (msg e)) w
              = (Ok tt, w'') /\ logs_only w' w''.
Proof.
  intros H. unfold try_except. rewrite H. destruct r as [[]|e].
  - exists w'. split; [reflexivity|apply logs_only_refl].
  - eexists. split; [reflexivity|apply log_logs_only].
Qed.

(** The inner loop raises nothing but what the [except] clause names. *)
Lemma descend_raises (keys : list PyStr.t) (config : pyobj) (e : exn) :
  descend config keys = Raise e -> KeyError_or_TypeError e = true.
Proof.
  revert config. induction keys as [|key rest IH]; simpl; [discriminate|].
  intros config. destruct (subscript config key) as [v|e'] eqn:Hsub.
  - apply IH.
  - intros [= <-]. unfold subscript in Hsub.
    destruct config; try (injection Hsub as <-; reflexivity).
    destruct (dict_get items key); [discriminate|].
    now injection Hsub as <-.
Qed.

Lemma try_path_spec (config : pyobj) (keys : list PyStr.t) (w : world) :
  exists w', try_path config keys w = (Ok (usable config keys), w')
             /\ logs_only w w'.
Proof.
  unfold try_path, try_except, bind, lift, usable.
  destruct (descend config keys) as [v|e] eqn:Hd.
  - destruct v; try (eexists; split; [reflexivity|apply logs_only_refl]).
    destruct (PyStr.truthy (PyStr.strip s)).
    + eexists; split; [reflexivity|]. apply log_logs_only.
    + eexists; split; [reflexivity|apply logs_only_refl].
  - rewrite (descend_raises _ _ Hd).
    eexists; split; [reflexivity|apply logs_only_refl].
Qed.

Lemma extract_from_spec (paths : list (list PyStr.t)) (config : pyobj)
    (w : world) :
  exists w', extract_from paths config w = (Ok (extracted paths config), w')
             /\ logs_only w w'.
Proof.
  revert w. induction paths as [|keys rest IH]; intros w.
  - eexists; split; [reflexivity|]. apply log_logs_only.
  - unfold extracted. simpl. unfold bind.
    destruct (try_path_spec config keys w) as (w1 & -> & H1).
    destruct (usable config keys) as [s|].
    + now exists w1.
    + destruct (IH w1) as (w2 & H2 & H12). exists w2. split; [exact H2|].
      now apply logs_only_trans with w1.
Qed.

(* ===================================================================== *)
(** * Key-paths: hits and misses *)
(* ===================================================================== *)

Lemma usable_yields (config : pyobj) (keys : list PyStr.t) (s : PyStr.t) :
  yields config keys s -> usable config keys = Some (PyStr.strip s).
Proof.
  intros [Hd Hs]. unfold usable. rewrite Hd.
  now rewrite (proj2 (truthy_nonempty _) Hs).
Qed.

Lemma usable_misses (config : pyobj) (keys : list PyStr.t) :
  misses config keys -> usable config keys = None.
Proof.
  intros Hm. unfold usable.
  destruct (descend config keys) as [v|e] eqn:Hd; [|reflexivity].
  destruct v; try reflexivity.
  destruct (PyStr.truthy (PyStr.strip s)) eqn:Ht; [|reflexivity].
  exfalso. apply (Hm s). split; [exact Hd|].
  now apply truthy_nonempty.
Qed.

Lemma usable_inv (config : pyobj) (keys : list PyStr.t) (r : PyStr.t) :
  usable config keys = Some r ->
  exists s, yields config keys s /\ r = PyStr.strip s.
Proof.
  unfold usable, yields.
  destruct (descend config keys) as [v|e]; [|discriminate].
  destruct v; try discriminate.
  destruct (PyStr.truthy (PyStr.strip s)) eqn:Ht; [|discriminate].
  intros [= <-]. exists s. repeat split. now apply truthy_nonempty.
Qed.

Lemma first_usable_inv (paths : list (list PyStr.t)) (config : pyobj)
    (r : PyStr.t) :
  first_usable paths config = Some r ->
  exists keys s, In keys paths /\ yields config keys s /\ r = PyStr.strip s.
Proof.
  induction paths as [|keys rest IH]; simpl; [discriminate|].
  destruct (usable config keys) as [r'|] eqn:Hu.
  - intros [= <-]. destruct (usable_inv _ _ Hu) as (s & Hy & ->).
    exists keys, s. auto.
  - intros H. destruct (IH H) as (k & s & Hin & Hy & ->).
    exists k, s. auto.
Qed.

(** The first key-path that yields a string decides, whatever follows it. *)
Lemma first_usable_split (before after : list (list PyStr.t))
    (keys : list PyStr.t) (config : pyobj) (s : PyStr.t) :
  Forall (misses config) before ->
  yields config keys s ->
  first_usable (before ++ keys :: after) config = Some (PyStr.strip s).
Proof.
  intros Hb Hy. induction Hb as [|k before Hk _ IH]; simpl.
  - now rewrite (usable_yields Hy).
  - now rewrite (usable_misses Hk).
Qed.

Lemma first_usable_all_miss (paths : list (list PyStr.t)) (config : pyobj) :
  Forall (misses config) paths -> first_usable paths config = None.
Proof.
  induction 1 as [|k paths Hk _ IH]; simpl; [reflexivity|].
  now rewrite (usable_misses Hk).
Qed.

(** What the extraction can return: a non-empty string that [strip] leaves
    alone. *)
Lemma first_usable_stripped (paths : list (list PyStr.t)) (config : pyobj)
    (r : PyStr.t) :
  first_usable paths config = Some r ->
  r <> [] /\ PyStr.strip r = r /\ PyStr.trimmed r = true.
Proof.
  intros H. destruct (first_usable_inv _ _ H) as (k & s & _ & [_ Hs] & ->).
  repeat split; [exact Hs|apply strip_idempotent|apply strip_trimmed].
Qed.

(* ===================================================================== *)
(** * What one call of [on_init] does *)
(* ===================================================================== *)

Lemma has_system_template_of (a : Agent) :
  has_system_template a = true <-> exists v, template_of a = Some v.
Proof.
  unfold has_system_template, template_of.
  destruct (templates a) as [holder|].
  - destruct (system_template holder) as [v|]; split;
      try discriminate; eauto. now intros [v' ?].
  - split; [discriminate|]. now intros [v ?].
Qed.

Lemma read_system_template_ok (w : world) (v : pyobj) :
  template_of (agent w) = Some v -> read_system_template w = (Ok v, w).
Proof.
  unfold template_of, read_system_template.
  destruct (templates (agent w)) as [holder|]; [|discriminate].
  now intros ->.
Qed.

Lemma assign_system_template_ok (s : PyStr.t) (w : world) (v : pyobj) :
  template_of (agent w) = Some v ->
  assign_system_template s w
  = (Ok tt, World (hook w) (MkAgent (Some (Templates (Some (PStr s)))))
              (trace w ++ [Assign s])).
Proof.
  unfold template_of, assign_system_template.
  destruct (templates (agent w)) as [holder|]; [reflexivity|discriminate].
Qed.

(** The world right after the assignment and the flag, followed by any log
    records. *)
Lemma applied_intro (s : PyStr.t) (w w1 : world) (t tr : list effect) :
  logs_only w w1 -> assignments t = [] ->
  tr = trace w1 ++ Assign s :: t ->
  applied s w
    (World (Hook (instance_id (hook w1)) (instance_templates_dir (hook w1))
              true)
           (MkAgent (Some (Templates (Some (PStr s))))) tr).
Proof.
  intros (Hh & Ha & t1 & Ht1 & Hn1) Hn ->. unfold applied.
  cbn [hook agent trace template_loaded instance_id instance_templates_dir].
  rewrite Hh. repeat split.
  exists (t1 ++ Assign s :: t).
  rewrite Ht1, assignments_app, Hn1, <- app_assoc. cbn [assignments app].
  now rewrite Hn.
Qed.

Lemma file_exists_lift (fs : filesystem) (p : path) (w : world) :
  lift (file_exists fs p) w = (file_exists fs p, w).
Proof. reflexivity. Qed.

(** When [exists()] raises, nothing else happens. *)
Lemma on_init_stat_steps (fs : filesystem) (w : world) (e : exn) :
  fs (template_file_of (hook w)) = StatFails e ->
  on_init fs w = (Raise e, w).
Proof.
  intros Hfs. unfold on_init.
  erewrite bind_ok by reflexivity. cbv zeta.
  erewrite bind_raise; [reflexivity|].
  rewrite file_exists_lift. unfold file_exists. now rewrite Hfs.
Qed.

(** [on_init] ends as [on_init_result] says, and has either applied the
    override computed by [override_for] or done nothing but log. *)
Lemma on_init_spec (fs : filesystem) (w : world) :
  exists w', on_init fs w = (on_init_result fs w, w') /\
    match override_for fs w with
    | Some s => applied s w w'
    | None => logs_only w w'
    end.
Proof.
  unfold on_init, override_for, on_init_result.
  erewrite bind_ok by reflexivity. cbv zeta.
  unfold bind at 1. rewrite file_exists_lift.
  unfold file_exists, load_yaml.
  destruct (fs (template_file_of (hook w))) as [e0| |document|e]; cbn [negb].
  - exists w. split; [reflexivity|apply logs_only_refl].
  - eexists; split; [reflexivity|]. apply log_logs_only.
  - match goal with
    | |- exists w', try_except ?body _ _ w = _ /\ _ =>
        assert (Hbody : exists r w1, body w = (r, w1) /\
          match (if has_system_template (agent w)
                 then first_usable paths_to_try document else None) with
          | Some s => applied s w w1
          | None => logs_only w w1
          end)
    end.
    { erewrite bind_ok by reflexivity.
      erewrite bind_ok by reflexivity.
      unfold _extract_system_template.
      match goal with
      | |- context [bind (extract_from _ _) _ ?w0] =>
          assert (H0 : logs_only w w0) by apply log_logs_only;
          destruct (extract_from_spec paths_to_try document w0)
            as (w1 & He & H1)
      end.
      erewrite bind_ok by exact He.
      assert (H01 : logs_only w w1) by (eapply logs_only_trans; eassumption).
      clear He H0 H1. unfold extracted.
      destruct (first_usable paths_to_try document) as [s|] eqn:Hf.
      - destruct (first_usable_stripped _ _ Hf) as (Hne & _ & _).
        rewrite (proj2 (truthy_nonempty s) Hne).
        erewrite bind_ok by reflexivity.
        assert (Ha : agent w1 = agent w) by apply H01. rewrite Ha.
        destruct (has_system_template (agent w)) eqn:Hhas.
        + apply has_system_template_of in Hhas. destruct Hhas as [v Hv].
          rewrite <- Ha in Hv.
          erewrite bind_ok by (apply read_system_template_ok; exact Hv).
          erewrite bind_ok by (apply assign_system_template_ok with v; exact Hv).
          erewrite bind_ok by reflexivity.
          erewrite bind_ok by reflexivity.
          cbn [hook agent trace]. unfold lift.
          destruct (py_len v) as [n|e] eqn:Hlen.
          * erewrite bind_ok by reflexivity.
            eexists _, _. split; [reflexivity|].
            eapply applied_intro;
              [exact H01| |cbn [hook agent trace instance_id
                 instance_templates_dir]; rewrite <- !app_assoc; reflexivity];
              reflexivity.
          * erewrite bind_raise by reflexivity.
            eexists _, _. split; [reflexivity|].
            eapply applied_intro;
              [exact H01| |cbn [hook agent trace instance_id
                 instance_templates_dir]; rewrite <- !app_assoc; reflexivity];
              reflexivity.
        + eexists _, _. split; [reflexivity|].
          eapply logs_only_trans; [exact H01|apply log_logs_only].
      - cbn [PyStr.truthy].
        eexists _, _. split; [reflexivity|].
        assert (Hx : logs_only w (snd (log WARNING
                  (NoValidTemplate (template_file_of (hook w))) w1)))
          by (eapply logs_only_trans; [exact H01|apply log_logs_only]).
        destruct (has_system_template (agent w)); exact Hx. }
    destruct Hbody as (r & w1 & Hrun & Hpost).
    destruct (@try_except_log _ ERROR (LoadError (instance_id (hook w))) _ _ _ Hrun)
      as (w2 & Htry & H12).
    exists w2. split; [exact Htry|].
    destruct (if has_system_template (agent w)
              then first_usable paths_to_try document else None) as [s|].
    + now apply applied_then_logs with w1.
    + now apply logs_only_trans with w1.
  - eexists; split; [reflexivity|].
    eapply logs_only_trans; apply log_logs_only.
Qed.

Lemma on_model_query_spec (messages : list pyobj) (id : PyStr.t)
    (w : world) :
  exists w', on_model_query messages id w = (Ok tt, w') /\ logs_only w w'.
Proof.
  unfold on_model_query. erewrite bind_ok by reflexivity.
  destruct (template_loaded (hook w) && (length messages =? 1)%nat).
  - eexists. split; [reflexivity|apply log_logs_only].
  - eexists. split; [reflexivity|apply logs_only_refl].
Qed.

Lemma on_init_result_run (fs : filesystem) (w : world) :
  on_init_result fs w = run_result (template_file_of (hook w)) [OnInit fs].
Proof.
  unfold on_init_result. simpl.
  now destruct (fs (template_file_of (hook w))).
Qed.

Lemma on_init_result_answers (fs : filesystem) (w : world) :
  exists_answers fs w -> on_init_result fs w = Ok tt.
Proof.
  unfold exists_answers, file_exists, on_init_result.
  intros [found H].
  now destruct (fs (template_file_of (hook w))).
Qed.

Lemma applied_file (s : PyStr.t) (w w' : world) :
  applied s w w' -> template_file_of (hook w') = template_file_of (hook w).
Proof.
  intros (_ & Hid & Hdir & _). unfold template_file_of. now rewrite Hid, Hdir.
Qed.

(** What any one callback does to the trace, to the flag and to the file
    the hook looks for. *)
Lemma invoke_spec (c : call) (w : world) :
  exists w' t, invoke c w = (run_result (template_file_of (hook w)) [c], w')
    /\ trace w' = trace w ++ t
    /\ length (assignments t) <= count_on_init [c]
    /\ (template_loaded (hook w') = template_loaded (hook w)
        \/ template_loaded (hook w') = true)
    /\ template_file_of (hook w') = template_file_of (hook w).
Proof.
  destruct c as [fs|messages id].
  - rewrite <- on_init_result_run. cbn [invoke].
    destruct (on_init_spec fs w) as (w' & Hrun & Hpost).
    destruct (override_for fs w) as [s|].
    + pose proof (applied_file Hpost) as Hfile.
      destruct Hpost as (Hl & _ & _ & _ & t & Ht & Hn).
      exists w', t. rewrite Hn. simpl. auto 10.
    + destruct Hpost as (Hh & _ & t & Ht & Hn).
      exists w', t. rewrite Hn, Hh. simpl. auto 10.
  - destruct (on_model_query_spec messages id w)
      as (w' & Hrun & Hh & _ & t & Ht & Hn).
    exists w', t. rewrite Hn, Hh. simpl. auto 10.
Qed.

(** A sequence goes on after a callback that returns and stops at one that
    raises. *)
Lemma run_cons (c : call) (rest : list call) (w w1 : world)
    (r : result unit) :
  invoke c w = (r, w1) ->
  run (c :: rest) w
  = match r with Ok _ => run rest w1 | Raise e => (Raise e, w1) end.
Proof. intros H. simpl. unfold bind. now rewrite H. Qed.

Lemma run_result_cons (p : path) (c : call) (rest : list call) :
  run_result p (c :: rest)
  = match run_result p [c] with
    | Ok _ => run_result p rest
    | Raise e => Raise e
    end.
Proof.
  destruct c as [fs|messages id]; simpl; [|reflexivity].
  now destruct (fs p).
Qed.

Lemma run_spec (calls : list call) (w : world) :
  exists w' t,
    run calls w = (run_result (template_file_of (hook w)) calls, w')
    /\ trace w' = trace w ++ t
    /\ length (assignments t) <= count_on_init calls
    /\ (template_loaded (hook w) = true -> template_loaded (hook w') = true).
Proof.
  revert w. induction calls as [|c rest IH]; intros w.
  - exists w, []. rewrite app_nil_r. simpl. auto.
  - destruct (invoke_spec c w) as (w1 & t1 & Hrun1 & Ht1 & Hn1 & Hf1 & Hp).
    rewrite (@run_cons c rest w w1 _ Hrun1),
      (run_result_cons (template_file_of (hook w)) c rest).
    assert (Hc : count_on_init [c] <= count_on_init (c :: rest))
      by (destruct c; simpl; lia).
    destruct (run_result (template_file_of (hook w)) [c]) as [[]|e].
    + destruct (IH w1) as (w2 & t2 & Hrun2 & Ht2 & Hn2 & Hf2).
      rewrite Hp in Hrun2.
      exists w2, (t1 ++ t2). split; [exact Hrun2|].
      split; [now rewrite Ht2, Ht1, app_assoc|]. split.
      * rewrite assignments_app, length_app.
        simpl in Hn1. destruct c; simpl; lia.
      * intros Hw. apply Hf2. destruct Hf1 as [Hf1|Hf1]; congruence.
    + exists w1, t1. split; [reflexivity|]. split; [exact Ht1|].
      split; [lia|]. intros Hw. destruct Hf1 as [Hf1|Hf1]; congruence.
Qed.

(* ===================================================================== *)
(** * Properties of the specification *)
(* ===================================================================== *)

(** What [on_init] does when nothing is to be applied. *)
Lemma on_init_untouched (fs : filesystem) (w : world) :
  override_for fs w = None ->
  exists w', on_init fs w = (on_init_result fs w, w')
             /\ agent w' = agent w /\ hook w' = hook w.
Proof.
  intros Hnone. destruct (on_init_spec fs w) as (w' & Hrun & Hpost).
  rewrite Hnone in Hpost. destruct Hpost as (Hh & Ha & _).
  exists w'. auto.
Qed.

Lemma failure_mode_no_override (fs : filesystem) (w : world) :
  failure_mode fs w -> override_for fs w = None.
Proof.
  unfold failure_mode, override_for.
  intros [H|[[e H]|[(document & H & Hmiss)|H]]].
  - now rewrite H.
  - now rewrite H.
  - rewrite H, (first_usable_all_miss Hmiss).
    now destruct (has_system_template (agent w)).
  - destruct (has_system_template (agent w)) eqn:Hhas.
    + apply has_system_template_of in Hhas. destruct Hhas as [v Hv].
      congruence.
    + now destruct (fs (template_file_of (hook w))).
Qed.

(** C1. When the document holds a string with non-whitespace content at one
    of the four key-paths and every key-path tried before it misses, and the
    agent has [templates.system_template], [on_init] returns normally with
    the agent's template set to that string stripped and [template_loaded]
    true.  Nothing is assumed of the key-paths after it: the earliest hit in
    the order of [paths_to_try] wins. *)
Theorem on_init_applies_first_hit
    (fs : filesystem) (w : world) (document : pyobj)
    (before after : list (list PyStr.t)) (keys : list PyStr.t)
    (s : PyStr.t) (original : pyobj) :
  paths_to_try = before ++ keys :: after ->
  Forall (misses document) before ->
  yields document keys s ->
  fs (template_file_of (hook w)) = FileLoads document ->
  template_of (agent w) = Some original ->
  exists w', on_init fs w = (Ok tt, w')
    /\ template_of (agent w') = Some (PStr (PyStr.strip s))
    /\ template_loaded (hook w') = true.
Proof.
  intros Hpaths Hbefore Hyields Hfs Horiginal.
  destruct (on_init_spec fs w) as (w' & Hrun & Hpost).
  unfold on_init_result in Hrun. rewrite Hfs in Hrun.
  assert (Hhas : has_system_template (agent w) = true)
    by (apply has_system_template_of; eauto).
  unfold override_for in Hpost.
  rewrite Hfs, Hhas, Hpaths, (first_usable_split after Hbefore Hyields)
    in Hpost.
  destruct Hpost as (Hloaded & _ & _ & Htemplate & _).
  exists w'. auto.
Qed.

Lemma on_init_applies_first_hit_witness :
  exists w',
    on_init (Scenario.single_file Scenario.task_42_yaml
               (FileLoads Scenario.reviewer))
            (Scenario.start Scenario.default_agent) = (Ok tt, w')
    /\ template_of (agent w')
       = Some (PStr (PyStr.strip (str "  You are a careful reviewer. ")))
    /\ template_loaded (hook w') = true.
Proof.
  apply (@on_init_applies_first_hit
           (Scenario.single_file Scenario.task_42_yaml
              (FileLoads Scenario.reviewer))
           (Scenario.start Scenario.default_agent)
           Scenario.reviewer
           [[str "agent"; str "templates"; str "system_template"]]
           [[str "system_template"]; [str "agent"; str "system_template"]]
           [str "templates"; str "system_template"]
           (str "  You are a careful reviewer. ")
           (PStr (str "default"))).
  - reflexivity.
  - constructor; [|constructor]. intros s [Hd _]. vm_compute in Hd.
    discriminate.
  - split; [reflexivity|]. vm_compute. discriminate.
  - reflexivity.
  - reflexivity.
Defined.

(** C2, as stated, fails when the exception is raised after the assignment:
    with a template that loads and an agent whose current
    [templates.system_template] is [None], [len(original_template)] raises
    [TypeError] inside the [try]; the handler logs it and [on_init] returns,
    but the override is in place and [template_loaded] is true. *)
Lemma on_init_exception_after_assignment :
  exists w',
    on_init (Scenario.single_file Scenario.task_42_yaml
               (FileLoads Scenario.terse))
            (Scenario.start Scenario.unset_agent) = (Ok tt, w')
    /\ trace w'
       = [ Log INFO (LoadingTemplate (str "task-42") Scenario.task_42_yaml);
           Log DEBUG (FoundAtPath [str "system_template"]);
           Assign (str "Be terse.");
           Log INFO (TemplateApplied (str "task-42"));
           Log ERROR (LoadError (str "task-42") TypeError) ]
    /\ template_of (agent (Scenario.start Scenario.unset_agent)) = Some PNone
    /\ template_of (agent w') = Some (PStr (str "Be terse."))
    /\ template_of (agent w')
       <> template_of (agent (Scenario.start Scenario.unset_agent))
    /\ template_loaded (hook (Scenario.start Scenario.unset_agent)) = false
    /\ template_loaded (hook w') = true.
Proof.
  eexists. split; [vm_compute; reflexivity|].
  repeat split; discriminate.
Qed.

(** C2, amended.  Whenever [template_file.exists()] answers, [on_init]
    returns normally: every exception raised inside the [try], while the
    file is loaded or parsed or the override applied, is caught and logged.
    In each failure mode that precedes the assignment ([exists()] answers
    false, a file that fails to load or parse, a document without a usable
    value, an agent without the attribute path) it also leaves the agent's
    template and the hook's state as they were, so [template_loaded] stays
    false when it was false. *)
Theorem on_init_failure_modes (fs : filesystem) (w : world) :
  exists_answers fs w ->
  exists w', on_init fs w = (Ok tt, w')
    /\ (failure_mode fs w ->
        template_of (agent w') = template_of (agent w)
        /\ agent w' = agent w
        /\ hook w' = hook w
        /\ (template_loaded (hook w) = false ->
            template_loaded (hook w') = false)).
Proof.
  intros Hanswers.
  destruct (on_init_spec fs w) as (w' & Hrun & Hpost).
  rewrite (on_init_result_answers Hanswers) in Hrun.
  exists w'. split; [exact Hrun|].
  intros Hfail. rewrite (failure_mode_no_override Hfail) in Hpost.
  destruct Hpost as (Hh & Ha & _). rewrite Ha, Hh. auto.
Qed.

Lemma on_init_failure_modes_witness :
  exists w',
    on_init (Scenario.single_file Scenario.task_42_yaml
               (FileLoads Scenario.terse))
            (Scenario.start Scenario.bare_agent) = (Ok tt, w')
    /\ agent w' = Scenario.bare_agent
    /\ template_loaded (hook w') = false.
Proof.
  assert (Hanswers : exists_answers
            (Scenario.single_file Scenario.task_42_yaml
               (FileLoads Scenario.terse))
            (Scenario.start Scenario.bare_agent)).
  { exists true. reflexivity. }
  destruct (@on_init_failure_modes
              (Scenario.single_file Scenario.task_42_yaml
                 (FileLoads Scenario.terse))
              (Scenario.start Scenario.bare_agent) Hanswers)
    as (w' & Hrun & Hkeep).
  exists w'. split; [exact Hrun|].
  assert (Hfail : failure_mode
            (Scenario.single_file Scenario.task_42_yaml
               (FileLoads Scenario.terse))
            (Scenario.start Scenario.bare_agent)).
  { right. right. right. reflexivity. }
  destruct (Hkeep Hfail) as (_ & Ha & _ & Hflag).
  split; [exact Ha|]. apply Hflag. reflexivity.
Defined.

(** C3, as stated, fails: [template_file.exists()] is called before the
    [try], and it raises when [stat] fails for a reason other than the file
    not being there.  With an instance id for which no file exists and
    [stat] fails (a name longer than the system allows), [on_init] raises
    to its caller; nothing is logged and nothing is changed. *)
Lemma on_init_raises_when_exists_raises :
  on_init (Scenario.single_file Scenario.task_42_yaml (StatFails OSError))
          (Scenario.start Scenario.default_agent)
  = (Raise OSError, Scenario.start Scenario.default_agent)
  /\ ~ (exists w',
         on_init (Scenario.single_file Scenario.task_42_yaml
                    (StatFails OSError))
                 (Scenario.start Scenario.default_agent) = (Ok tt, w')).
Proof.
  split; [reflexivity|]. intros [w' H]. vm_compute in H. discriminate.
Qed.

(** C3, amended.  When [template_file.exists()] answers false (no
    [<instance_id>.yaml] is found in the template directory), and when the
    file exists but cannot be loaded or parsed, [on_init] returns normally
    and leaves the agent's template and [template_loaded] as they were
    (false, for a hook that has not applied anything).  When [exists()]
    itself raises, the exception reaches the caller, and the agent, the hook
    and the log are as they were. *)
Theorem on_init_absent_or_unparsable (fs : filesystem) (w : world) :
  (fs (template_file_of (hook w)) = FileAbsent
   \/ (exists e, fs (template_file_of (hook w)) = FileFails e) ->
   exists w', on_init fs w = (Ok tt, w')
     /\ template_of (agent w') = template_of (agent w)
     /\ template_loaded (hook w') = template_loaded (hook w))
  /\ (forall e, fs (template_file_of (hook w)) = StatFails e ->
      on_init fs w = (Raise e, w)).
Proof.
  split.
  - intros Hfile.
    assert (Hnone : override_for fs w = None).
    { unfold override_for. destruct Hfile as [H|[e H]]; now rewrite H. }
    destruct (on_init_untouched _ _ Hnone) as (w' & Hrun & Ha & Hh).
    assert (Hresult : on_init_result fs w = Ok tt).
    { unfold on_init_result. destruct Hfile as [H|[e H]]; now rewrite H. }
    rewrite Hresult in Hrun. exists w'. rewrite Ha, Hh. auto.
  - intros e. apply on_init_stat_steps.
Qed.

Lemma on_init_absent_or_unparsable_witness :
  (exists w',
      on_init Scenario.no_files (Scenario.start Scenario.default_agent)
      = (Ok tt, w')
      /\ template_of (agent w') = Some (PStr (str "default"))
      /\ template_loaded (hook w') = false)
  /\ (exists w',
      on_init (Scenario.single_file Scenario.task_42_yaml
                 (FileFails YAMLError))
              (Scenario.start Scenario.default_agent) = (Ok tt, w')
      /\ template_of (agent w') = Some (PStr (str "default"))
      /\ template_loaded (hook w') = false)
  /\ on_init (Scenario.single_file Scenario.task_42_yaml
                (StatFails OSError))
             (Scenario.start Scenario.default_agent)
     = (Raise OSError, Scenario.start Scenario.default_agent).
Proof.
  split; [|split].
  - apply (proj1 (on_init_absent_or_unparsable Scenario.no_files
                    (Scenario.start Scenario.default_agent))).
    left. reflexivity.
  - apply (proj1 (on_init_absent_or_unparsable
                    (Scenario.single_file Scenario.task_42_yaml
                       (FileFails YAMLError))
                    (Scenario.start Scenario.default_agent))).
    right. exists YAMLError. reflexivity.
  - apply (proj2 (on_init_absent_or_unparsable
                    (Scenario.single_file Scenario.task_42_yaml
                       (StatFails OSError))
                    (Scenario.start Scenario.default_agent))).
    reflexivity.
Defined.

(** A descent that ends on an empty string, a whitespace-only string or a
    value that is not a string makes the iteration fall through, silently. *)
Lemma try_path_falls_through (config : pyobj) (keys : list PyStr.t)
    (v : pyobj) (w : world) :
  descend config keys = Ok v ->
  v = PStr []
  \/ (exists s, v = PStr s /\ PyStr.whitespace_only s = true)
  \/ (forall s, v <> PStr s) ->
  try_path config keys w = (Ok None, w).
Proof.
  intros Hd Hv. unfold try_path, try_except, bind, lift. rewrite Hd.
  destruct Hv as [->|[(s & -> & Hs)|Hv]].
  - reflexivity.
  - now rewrite (whitespace_only_strip s Hs).
  - destruct v; try reflexivity. now destruct (Hv s).
Qed.

(** C4. A key-path whose descent ends on an empty string, on a
    whitespace-only string or on a value that is not a string is a miss: the
    extraction goes on with the next key-path exactly as if the path had not
    been there.  When all four key-paths miss, [on_init] returns normally
    and leaves the agent and the hook as they were. *)
Theorem unusable_value_is_a_miss :
  (forall (config : pyobj) (keys : list PyStr.t)
          (rest : list (list PyStr.t)) (v : pyobj) (w : world),
      descend config keys = Ok v ->
      v = PStr []
      \/ (exists s, v = PStr s /\ PyStr.whitespace_only s = true)
      \/ (forall s, v <> PStr s) ->
      misses config keys
      /\ extract_from (keys :: rest) config w = extract_from rest config w)
  /\ (forall (fs : filesystem) (w : world) (document : pyobj),
      fs (template_file_of (hook w)) = FileLoads document ->
      Forall (misses document) paths_to_try ->
      exists w', on_init fs w = (Ok tt, w')
        /\ agent w' = agent w /\ hook w' = hook w).
Proof.
  split.
  - intros config keys rest v w Hd Hv. split.
    + intros s [Hd' Hs]. rewrite Hd in Hd'. injection Hd' as ->.
      destruct Hv as [Hv|[(s' & Hv & Hws)|Hv]].
      * injection Hv as ->. now apply Hs.
      * injection Hv as ->. apply Hs. now apply whitespace_only_strip.
      * now apply (Hv s).
    + simpl. erewrite bind_ok by (eapply try_path_falls_through; eassumption).
      reflexivity.
  - intros fs w document Hfs Hmiss.
    destruct (on_init_untouched fs w) as (w' & Hrun & Ha & Hh).
    { apply failure_mode_no_override. right. right. left. eauto. }
    unfold on_init_result in Hrun. rewrite Hfs in Hrun.
    exists w'. auto.
Qed.

Lemma unusable_value_is_a_miss_witness :
  extract_from
    [[str "system_template"]; [str "agent"; str "system_template"]]
    Scenario.unusable_document (Scenario.start Scenario.default_agent)
  = extract_from [[str "agent"; str "system_template"]]
      Scenario.unusable_document (Scenario.start Scenario.default_agent)
  /\ exists w',
      on_init (Scenario.single_file Scenario.task_42_yaml
                 (FileLoads Scenario.unusable_document))
              (Scenario.start Scenario.default_agent) = (Ok tt, w')
      /\ agent w' = Scenario.default_agent
      /\ hook w' = Scenario.task_42.
Proof.
  destruct unusable_value_is_a_miss as [Hnext Hall]. split.
  - apply (Hnext Scenario.unusable_document [str "system_template"]
             [[str "agent"; str "system_template"]] (PStr (str "   "))).
    + reflexivity.
    + right. left. exists (str "   "). split; reflexivity.
  - apply (Hall (Scenario.single_file Scenario.task_42_yaml
                   (FileLoads Scenario.unusable_document))
                (Scenario.start Scenario.default_agent)
                Scenario.unusable_document).
    + reflexivity.
    + repeat constructor; intros s [Hd Hs]; vm_compute in Hd;
        try discriminate.
      injection Hd as <-. apply Hs. reflexivity.
Defined.

Lemma snoc_neq {A} (l : list A) (x : A) : l ++ [x] <> l.
Proof.
  intros H. apply (f_equal (@length A)) in H.
  rewrite length_app in H. simpl in H. lia.
Qed.

(** C5. [on_model_query] returns normally and changes neither the hook nor
    the agent.  It appends its one INFO record to the log exactly when
    [template_loaded] is true and [messages] has length one; in every other
    case the world is left as it was. *)
Theorem on_model_query_logs_iff (messages : list pyobj) (id : PyStr.t)
    (w : world) :
  exists w', on_model_query messages id w = (Ok tt, w')
    /\ hook w' = hook w
    /\ agent w' = agent w
    /\ (trace w'
        = trace w ++ [Log INFO (UsingCustomTemplate (instance_id (hook w)))]
        <-> template_loaded (hook w) = true /\ length messages = 1)
    /\ (~ (template_loaded (hook w) = true /\ length messages = 1) ->
        w' = w).
Proof.
  unfold on_model_query. erewrite bind_ok by reflexivity.
  destruct (template_loaded (hook w)) eqn:Hflag;
    destruct (Nat.eqb_spec (length messages) 1) as [Hlen|Hlen];
    cbn [andb]; eexists; (split; [reflexivity|]);
    cbn [hook agent trace]; (split; [reflexivity|]);
    (split; [reflexivity|]); split.
  - tauto.
  - intros H. exfalso. apply H. auto.
  - split; [intros H; now apply eq_sym, snoc_neq in H|tauto].
  - reflexivity.
  - split; [intros H; now apply eq_sym, snoc_neq in H|].
    intros [? _]. discriminate.
  - reflexivity.
  - split; [intros H; now apply eq_sym, snoc_neq in H|].
    intros [? _]. discriminate.
  - reflexivity.
Qed.

Lemma on_model_query_logs_iff_witness :
  exists w',
    on_model_query [PStr (str "system prompt")] (str "task-42")
      (World (Hook (str "task-42") (str "instance_templates") true)
             Scenario.default_agent []) = (Ok tt, w')
    /\ trace w' = [Log INFO (UsingCustomTemplate (str "task-42"))].
Proof.
  destruct (on_model_query_logs_iff [PStr (str "system prompt")]
              (str "task-42")
              (World (Hook (str "task-42") (str "instance_templates") true)
                     Scenario.default_agent []))
    as (w' & Hrun & _ & _ & Hiff & _).
  exists w'. split; [exact Hrun|].
  apply (proj2 Hiff). split; reflexivity.
Defined.

(** [override_for] looks at the hook's file and at whether the agent has
    the attribute path, and at nothing else of the world. *)
Lemma override_for_ext (fs : filesystem) (w w1 : world) :
  instance_id (hook w1) = instance_id (hook w) ->
  instance_templates_dir (hook w1) = instance_templates_dir (hook w) ->
  has_system_template (agent w1) = has_system_template (agent w) ->
  override_for fs w1 = override_for fs w.
Proof.
  intros Hid Hdir Hhas. unfold override_for, template_file_of.
  now rewrite Hid, Hdir, Hhas.
Qed.

Lemma override_for_has (fs : filesystem) (w : world) (s : PyStr.t) :
  override_for fs w = Some s -> has_system_template (agent w) = true.
Proof.
  unfold override_for.
  destruct (fs (template_file_of (hook w))); try discriminate.
  now destruct (has_system_template (agent w)).
Qed.

(** C7, as stated, fails: nothing in [on_init] looks at [template_loaded],
    so every call that finds a usable template assigns again.  Two calls on
    one hook, with the file rewritten in between, assign twice. *)
Lemma two_on_init_calls_assign_twice :
  exists w',
    run [ OnInit (Scenario.single_file Scenario.task_42_yaml
                    (FileLoads Scenario.reviewer));
          OnInit (Scenario.single_file Scenario.task_42_yaml
                    (FileLoads Scenario.terse)) ]
        (Scenario.start Scenario.default_agent) = (Ok tt, w')
    /\ assignments (trace w')
       = [str "You are a careful reviewer."; str "Be terse."]
    /\ ~ length (assignments (trace w')) <= 1.
Proof.
  eexists. split; [vm_compute; reflexivity|].
  split; [reflexivity|]. simpl. lia.
Qed.

(** C7, amended.  One [on_init] call assigns the agent's template at most
    once, and [on_model_query] never does; over any sequence of callbacks on
    one hook there are at most as many assignments as there are [on_init]
    calls in it.  (A call ends as [on_init_result] and [run_result] say:
    normally, unless [template_file.exists()] raises.) *)
Theorem assignments_bounded_by_on_init_calls :
  (forall (fs : filesystem) (w : world),
      exists w' t, on_init fs w = (on_init_result fs w, w')
        /\ trace w' = trace w ++ t
        /\ length (assignments t) <= 1)
  /\ (forall (messages : list pyobj) (id : PyStr.t) (w : world),
      exists w' t, on_model_query messages id w = (Ok tt, w')
        /\ trace w' = trace w ++ t
        /\ assignments t = [])
  /\ (forall (calls : list call) (w : world),
      exists w' t,
        run calls w = (run_result (template_file_of (hook w)) calls, w')
        /\ trace w' = trace w ++ t
        /\ length (assignments t) <= count_on_init calls).
Proof.
  split; [|split].
  - intros fs w. rewrite on_init_result_run.
    destruct (invoke_spec (OnInit fs) w) as (w' & t & Hrun & Ht & Hn & _).
    exists w', t. auto.
  - intros messages id w.
    destruct (on_model_query_spec messages id w)
      as (w' & Hrun & _ & _ & t & Ht & Hn).
    exists w', t. auto.
  - intros calls w.
    destruct (run_spec calls w) as (w' & t & Hrun & Ht & Hn & _).
    exists w', t. auto.
Qed.

(** C8. [template_loaded] is false in a new hook; a callback either leaves
    it as it was or leaves it true; and once it is true it is true after
    any further sequence of [on_init] and [on_model_query] calls, however
    the sequence ends. *)
Theorem template_loaded_monotone :
  (forall id dir : PyStr.t, template_loaded (__init__ id dir) = false)
  /\ (forall (c : call) (w : world),
      exists w',
        invoke c w = (run_result (template_file_of (hook w)) [c], w')
        /\ (template_loaded (hook w') = template_loaded (hook w)
            \/ template_loaded (hook w') = true))
  /\ (forall (calls : list call) (w : world),
      template_loaded (hook w) = true ->
      exists w',
        run calls w = (run_result (template_file_of (hook w)) calls, w')
        /\ template_loaded (hook w') = true).
Proof.
  split; [reflexivity|split].
  - intros c w.
    destruct (invoke_spec c w) as (w' & t & Hrun & _ & _ & Hflag & _).
    exists w'. auto.
  - intros calls w Hflag.
    destruct (run_spec calls w) as (w' & t & Hrun & _ & _ & Hkeep).
    exists w'. auto.
Qed.

Lemma template_loaded_monotone_witness :
  exists w',
    run [ OnInit Scenario.no_files;
          OnModelQuery [PNone; PNone] (str "task-42");
          OnInit (Scenario.single_file Scenario.task_42_yaml
                    (FileFails YAMLError)) ]
        (World (Hook (str "task-42") (str "instance_templates") true)
               Scenario.default_agent []) = (Ok tt, w')
    /\ template_loaded (hook w') = true.
Proof.
  apply (proj2 (proj2 template_loaded_monotone)
           [ OnInit Scenario.no_files;
             OnModelQuery [PNone; PNone] (str "task-42");
             OnInit (Scenario.single_file Scenario.task_42_yaml
                       (FileFails YAMLError)) ]
           (World (Hook (str "task-42") (str "instance_templates") true)
                  Scenario.default_agent [])).
  reflexivity.
Defined.

(** C9. On every document, whatever its root and whatever lies on the way,
    [_extract_system_template] returns normally, touches neither the hook
    nor the agent, and its result is the empty string or a non-empty string
    that [strip] leaves unchanged. *)
Theorem extract_system_template_total (config : pyobj) (w : world) :
  exists s w', _extract_system_template config w = (Ok s, w')
    /\ hook w' = hook w
    /\ agent w' = agent w
    /\ (s = [] \/ (PyStr.truthy s = true /\ PyStr.strip s = s)).
Proof.
  unfold _extract_system_template.
  destruct (extract_from_spec paths_to_try config w)
    as (w' & Hrun & Hh & Ha & _).
  exists (extracted paths_to_try config), w'.
  repeat split; trivial. unfold extracted.
  destruct (first_usable paths_to_try config) as [s|] eqn:Hf; [|now left].
  destruct (first_usable_stripped _ _ Hf) as (Hne & Hstrip & _).
  right. split; [now apply truthy_nonempty|exact Hstrip].
Qed.

(** C10. Every value [on_init] assigns to the agent's template is a
    non-empty string with no whitespace at either end; after the call the
    agent's template is what it was before, or such a string. *)
Theorem on_init_assigns_trimmed (fs : filesystem) (w : world) :
  exists w' t, on_init fs w = (on_init_result fs w, w')
    /\ trace w' = trace w ++ t
    /\ Forall (fun v => PyStr.truthy v = true /\ PyStr.trimmed v = true
                        /\ PyStr.whitespace_only v = false)
         (assignments t)
    /\ (template_of (agent w') = template_of (agent w)
        \/ exists v, template_of (agent w') = Some (PStr v)
             /\ PyStr.truthy v = true /\ PyStr.trimmed v = true
             /\ PyStr.whitespace_only v = false).
Proof.
  destruct (on_init_spec fs w) as (w' & Hrun & Hpost).
  destruct (override_for fs w) as [s|] eqn:Hover.
  - destruct Hpost as (_ & _ & _ & Htemplate & t & Ht & Hn).
    assert (Hs : PyStr.truthy s = true /\ PyStr.trimmed s = true
                 /\ PyStr.whitespace_only s = false).
    { unfold override_for in Hover.
      destruct (fs (template_file_of (hook w))); try discriminate.
      destruct (has_system_template (agent w)); try discriminate.
      destruct (first_usable_stripped _ _ Hover) as (Hne & Hstrip & Htrim).
      repeat split; [now apply truthy_nonempty|exact Htrim|].
      destruct (PyStr.whitespace_only s) eqn:Hws; [|reflexivity].
      apply whitespace_only_strip in Hws. congruence. }
    exists w', t. rewrite Hn. repeat split; eauto.
  - destruct Hpost as (_ & Ha & t & Ht & Hn).
    exists w', t. rewrite Hn, Ha. repeat split; auto.
Qed.

(* ===================================================================== *)
(** * Further properties: the extraction *)
(* ===================================================================== *)

Lemma try_except_ok {A} (body : M A) (classes : exn -> bool)
    (handler : exn -> M A) (w w' : world) (a : A) :
  body w = (Ok a, w') -> try_except body classes handler w = (Ok a, w').
Proof. unfold try_except. now intros ->. Qed.

Lemma try_path_miss (config : pyobj) (keys : list PyStr.t) (w : world) :
  misses config keys -> try_path config keys w = (Ok None, w).
Proof.
  intros Hm. unfold try_path, try_except, bind, lift.
  destruct (descend config keys) as [v|e] eqn:Hd.
  - destruct v; try reflexivity.
    destruct (PyStr.truthy (PyStr.strip s)) eqn:Ht; [|reflexivity].
    destruct (Hm s). split; [exact Hd|now apply truthy_nonempty].
  - now rewrite (descend_raises _ _ Hd).
Qed.

Lemma try_path_hit (config : pyobj) (keys : list PyStr.t) (s : PyStr.t)
    (w : world) :
  yields config keys s ->
  try_path config keys w
  = (Ok (Some (PyStr.strip s)),
     World (hook w) (agent w) (trace w ++ [Log DEBUG (FoundAtPath keys)])).
Proof.
  intros [Hd Hs]. unfold try_path, try_except, bind, lift. rewrite Hd.
  now rewrite (proj2 (truthy_nonempty _) Hs).
Qed.

Lemma extract_from_hit (before after : list (list PyStr.t))
    (keys : list PyStr.t) (config : pyobj) (s : PyStr.t) (w : world) :
  Forall (misses config) before ->
  yields config keys s ->
  extract_from (before ++ keys :: after) config w
  = (Ok (PyStr.strip s),
     World (hook w) (agent w) (trace w ++ [Log DEBUG (FoundAtPath keys)])).
Proof.
  intros Hb Hy. induction Hb as [|k before Hk _ IH]; simpl.
  - erewrite bind_ok by (apply try_path_hit; exact Hy). reflexivity.
  - erewrite bind_ok by (apply try_path_miss; exact Hk). exact IH.
Qed.

Lemma extract_from_all_miss (paths : list (list PyStr.t)) (config : pyobj)
    (w : world) :
  Forall (misses config) paths ->
  extract_from paths config w
  = (Ok [], World (hook w) (agent w) (trace w ++ [Log DEBUG NotFoundAnywhere])).
Proof.
  induction 1 as [|k paths Hk _ IH]; simpl.
  - reflexivity.
  - erewrite bind_ok by (apply try_path_miss; exact Hk). exact IH.
Qed.

Lemma usable_none_misses (config : pyobj) (keys : list PyStr.t) :
  usable config keys = None -> misses config keys.
Proof.
  intros Hu s [Hd Hs]. unfold usable in Hu. rewrite Hd in Hu.
  now rewrite (proj2 (truthy_nonempty _) Hs) in Hu.
Qed.

(** Every list of key-paths either misses throughout or splits at its first
    hit. *)
Lemma paths_cases (paths : list (list PyStr.t)) (config : pyobj) :
  Forall (misses config) paths
  \/ exists before keys after s,
       paths = before ++ keys :: after
       /\ Forall (misses config) before
       /\ yields config keys s.
Proof.
  induction paths as [|k paths IH]; [now left|].
  destruct (usable config k) as [r|] eqn:Hu.
  - right. destruct (usable_inv _ _ Hu) as (s & Hy & _).
    exists [], k, paths, s. split; [reflexivity|]. split; [constructor|].
    exact Hy.
  - apply usable_none_misses in Hu. destruct IH as [IH|IH].
    + left. now constructor.
    + right. destruct IH as (before & keys & after & s & -> & Hb & Hy).
      exists (k :: before), keys, after, s. split; [reflexivity|].
      split; [now constructor|exact Hy].
Qed.

(** X1. The extraction returns the empty string exactly when all four
    key-paths miss; otherwise it returns the stripped string of the first
    key-path that yields one, and its one DEBUG record names that path. *)
Theorem extract_system_template_characterised (config : pyobj) (w : world) :
  (Forall (misses config) paths_to_try
   /\ _extract_system_template config w
      = (Ok [], World (hook w) (agent w)
                  (trace w ++ [Log DEBUG NotFoundAnywhere])))
  \/ (exists before keys after s,
        paths_to_try = before ++ keys :: after
        /\ Forall (misses config) before
        /\ yields config keys s
        /\ PyStr.truthy (PyStr.strip s) = true
        /\ _extract_system_template config w
           = (Ok (PyStr.strip s),
              World (hook w) (agent w)
                (trace w ++ [Log DEBUG (FoundAtPath keys)]))).
Proof.
  unfold _extract_system_template.
  destruct (paths_cases paths_to_try config)
    as [Hall|(before & keys & after & s & Hsplit & Hb & Hy)].
  - left. split; [exact Hall|now apply extract_from_all_miss].
  - right. exists before, keys, after, s. rewrite Hsplit.
    repeat split; trivial; try apply Hy.
    + apply truthy_nonempty, Hy.
    + now apply extract_from_hit.
Qed.

Lemma descend_root (items items' : list (pyobj * pyobj)) (key : PyStr.t)
    (rest : list PyStr.t) :
  dict_get items key = dict_get items' key ->
  descend (PDict items) (key :: rest) = descend (PDict items') (key :: rest).
Proof. intros H. simpl. now rewrite H. Qed.

Lemma try_path_root (items items' : list (pyobj * pyobj)) (key : PyStr.t)
    (rest : list PyStr.t) (w : world) :
  dict_get items key = dict_get items' key ->
  try_path (PDict items) (key :: rest) w
  = try_path (PDict items') (key :: rest) w.
Proof.
  intros H. unfold try_path. now rewrite (@descend_root items items' key rest H).
Qed.

(** X2. The extraction looks at the root mapping through the keys [agent],
    [templates] and [system_template] only: two root mappings that agree on
    these three keys give the same result and the same log, whatever other
    keys they hold. *)
Theorem extract_system_template_ignores_other_keys
    (items items' : list (pyobj * pyobj)) (w : world) :
  (forall key, In key root_keys -> dict_get items key = dict_get items' key) ->
  _extract_system_template (PDict items) w
  = _extract_system_template (PDict items') w.
Proof.
  intros H.
  assert (Hagent : dict_get items (str "agent")
                   = dict_get items' (str "agent"))
    by (apply H; simpl; auto).
  assert (Htemplates : dict_get items (str "templates")
                       = dict_get items' (str "templates"))
    by (apply H; simpl; auto).
  assert (Hsystem : dict_get items (str "system_template")
                    = dict_get items' (str "system_template"))
    by (apply H; simpl; auto).
  unfold _extract_system_template, paths_to_try.
  cbn [extract_from]. unfold bind.
  rewrite (@try_path_root items items' _ _ w Hagent).
  destruct (try_path (PDict items') _ w) as [[[r|]|e] w1]; try reflexivity.
  rewrite (@try_path_root items items' _ _ w1 Htemplates).
  destruct (try_path (PDict items') _ w1) as [[[r|]|e] w2]; try reflexivity.
  rewrite (@try_path_root items items' _ _ w2 Hsystem).
  destruct (try_path (PDict items') _ w2) as [[[r|]|e] w3]; try reflexivity.
  now rewrite (@try_path_root items items' _ _ w3 Hagent).
Qed.

Lemma extract_system_template_ignores_other_keys_witness :
  _extract_system_template
    (PDict [ (PStr (str "model"), PStr (str "large"));
             (PInt 3, PNone);
             (PStr (str "system_template"), PStr (str "Be terse.")) ])
    (Scenario.start Scenario.default_agent)
  = _extract_system_template Scenario.terse
      (Scenario.start Scenario.default_agent).
Proof.
  apply extract_system_template_ignores_other_keys.
  intros key [<-|[<-|[<-|[]]]]; reflexivity.
Defined.

(** X3. A root that is not a mapping (the [None] of an empty file, a
    scalar, a list) makes every key-path miss: the extraction returns the
    empty string and logs that nothing was found. *)
Theorem extract_system_template_non_mapping (config : pyobj) (w : world) :
  (forall items, config <> PDict items) ->
  _extract_system_template config w
  = (Ok [], World (hook w) (agent w)
              (trace w ++ [Log DEBUG NotFoundAnywhere])).
Proof.
  intros Hroot. apply extract_from_all_miss.
  assert (Hmiss : forall key rest, misses config (key :: rest)).
  { intros key rest s [Hd _]. simpl in Hd.
    destruct config; try discriminate. now destruct (Hroot items). }
  unfold paths_to_try. repeat constructor; apply Hmiss.
Qed.

Lemma extract_system_template_non_mapping_witness :
  _extract_system_template PNone (Scenario.start Scenario.default_agent)
  = (Ok [], World Scenario.task_42 Scenario.default_agent
              [Log DEBUG NotFoundAnywhere]).
Proof.
  apply (@extract_system_template_non_mapping PNone
           (Scenario.start Scenario.default_agent)).
  intros items. discriminate.
Defined.

(** X4. The inner loop composes: descending a key-path is descending a
    prefix of it and then the rest from the value reached, and an exception
    on the prefix is the exception of the whole. *)
Theorem descend_app (config : pyobj) (prefix rest : list PyStr.t) :
  descend config (prefix ++ rest)
  = match descend config prefix with
    | Ok v => descend v rest
    | Raise e => Raise e
    end.
Proof.
  revert config. induction prefix as [|key prefix IH]; intros config.
  - reflexivity.
  - simpl. destruct (subscript config key) as [v|e]; [apply IH|reflexivity].
Qed.

Lemma eqb_refl (k : PyStr.t) : PyStr.eqb k k = true.
Proof. unfold PyStr.eqb. now destruct (PyStr.eq_dec k k). Qed.

Lemma descend_nest_leaf (keys : list PyStr.t) (leaf : pyobj) :
  descend (nest keys leaf) keys = Ok leaf.
Proof.
  induction keys as [|key keys IH]; [reflexivity|].
  simpl. now rewrite eqb_refl.
Qed.

(** X5. Descending the key-path a document was nested along reaches the
    leaf; descending any key-path that first differs from it at some key
    raises [KeyError] there. *)
Theorem descend_nest (keys : list PyStr.t) (leaf : pyobj) :
  descend (nest keys leaf) keys = Ok leaf
  /\ (forall (common : list PyStr.t) (key other : PyStr.t)
             (rest rest' : list PyStr.t),
        keys = common ++ key :: rest ->
        other <> key ->
        descend (nest keys leaf) (common ++ other :: rest') = Raise KeyError).
Proof.
  split; [apply descend_nest_leaf|].
  - intros common. revert keys.
    induction common as [|c common IH]; intros keys key other rest rest' ->
      Hneq; simpl.
    + unfold PyStr.eqb. destruct (PyStr.eq_dec key other); [|reflexivity].
      now destruct Hneq.
    + rewrite eqb_refl. now apply IH with key rest.
Qed.

Lemma descend_nest_witness :
  descend (nest [str "agent"; str "system_template"] (PStr (str "Be terse.")))
    [str "agent"; str "templates"; str "system_template"]
  = Raise KeyError.
Proof.
  apply (proj2 (descend_nest [str "agent"; str "system_template"]
                  (PStr (str "Be terse.")))
           [str "agent"] (str "system_template") (str "templates") []
           [str "system_template"]).
  - reflexivity.
  - vm_compute. discriminate.
Defined.

(* ===================================================================== *)
(** * Further properties: what is stripped *)
(* ===================================================================== *)

Lemma lstrip_decompose (s : PyStr.t) :
  exists spaces, s = spaces ++ PyStr.lstrip s
                 /\ PyStr.whitespace_only spaces = true.
Proof.
  induction s as [|c s (spaces & IH & Hws)]; [now exists []|].
  simpl. destruct (PyStr.isspace c) eqn:Hc.
  - exists (c :: spaces). split; [simpl; now f_equal|].
    simpl. now rewrite Hc.
  - now exists [].
Qed.

Lemma whitespace_only_rev (s : PyStr.t) :
  PyStr.whitespace_only (rev s) = PyStr.whitespace_only s.
Proof.
  unfold PyStr.whitespace_only.
  induction s as [|c s IH]; [reflexivity|].
  simpl. rewrite forallb_app, IH. simpl.
  rewrite andb_true_r. apply andb_comm.
Qed.

Lemma strip_decompose (s : PyStr.t) :
  exists leading trailing,
    s = leading ++ PyStr.strip s ++ trailing
    /\ PyStr.whitespace_only leading = true
    /\ PyStr.whitespace_only trailing = true.
Proof.
  destruct (lstrip_decompose s) as (leading & Hl & Hlw).
  destruct (lstrip_decompose (rev (PyStr.lstrip s)))
    as (spaces & Hr & Hrw).
  exists leading, (rev spaces). split; [|split]; trivial.
  - rewrite Hl at 1. f_equal. unfold PyStr.strip, PyStr.rstrip.
    rewrite <- rev_app_distr, <- Hr. symmetry. apply rev_involutive.
  - now rewrite whitespace_only_rev.
Qed.

Lemma strip_empty_iff (s : PyStr.t) :
  PyStr.strip s = [] <-> PyStr.whitespace_only s = true.
Proof.
  split; [|apply whitespace_only_strip].
  intros H. destruct (strip_decompose s) as (l & t & Hs & Hl & Ht).
  rewrite H in Hs. rewrite Hs. unfold PyStr.whitespace_only in *.
  simpl. now rewrite forallb_app, Hl, Ht.
Qed.



(* ===================================================================== *)
(** * Further properties: the log of [on_init] *)
(* ===================================================================== *)

Ltac enter_on_init Hfs :=
  unfold on_init; erewrite bind_ok by reflexivity; cbv zeta;
  erewrite bind_ok
    by (rewrite file_exists_lift; unfold file_exists; rewrite Hfs;
        reflexivity);
  unfold load_yaml; try rewrite Hfs; cbn [negb].

Ltac flatten_trace :=
  unfold log; cbn [hook agent trace instance_id instance_templates_dir];
  rewrite <- ?app_assoc; reflexivity.

Lemma has_system_template_none (a : Agent) :
  template_of a = None -> has_system_template a = false.
Proof.
  intros H. destruct (has_system_template a) eqn:Hhas; [|reflexivity].
  apply has_system_template_of in Hhas. destruct Hhas as [v Hv]. congruence.
Qed.

(** The success path up to the INFO record, as one world. *)
Lemma on_init_success_steps (fs : filesystem) (w : world) (document : pyobj)
    (before after : list (list PyStr.t)) (keys : list PyStr.t)
    (s : PyStr.t) (original : pyobj) :
  paths_to_try = before ++ keys :: after ->
  Forall (misses document) before ->
  yields document keys s ->
  fs (template_file_of (hook w)) = FileLoads document ->
  template_of (agent w) = Some original ->
  on_init fs w
  = (Ok tt,
     World (Hook (instance_id (hook w)) (instance_templates_dir (hook w)) true)
           (MkAgent (Some (Templates (Some (PStr (PyStr.strip s))))))
           (trace w
            ++ [ Log INFO (LoadingTemplate (instance_id (hook w))
                             (template_file_of (hook w)));
                 Log DEBUG (FoundAtPath keys);
                 Assign (PyStr.strip s);
                 Log INFO (TemplateApplied (instance_id (hook w)));
                 match py_len original with
                 | Ok n => Log DEBUG (TemplateLengths n
                                        (length (PyStr.strip s)))
                 | Raise e => Log ERROR (LoadError (instance_id (hook w)) e)
                 end ])).
Proof.
  intros Hpaths Hbefore Hyields Hfs Horiginal.
  assert (Hhas : has_system_template (agent w) = true)
    by (apply has_system_template_of; eauto).
  assert (Htruthy : PyStr.truthy (PyStr.strip s) = true)
    by (apply truthy_nonempty, Hyields).
  enter_on_init Hfs.
  destruct (py_len original) as [n|e] eqn:Hlen.
  - apply try_except_ok.
    erewrite bind_ok by reflexivity.
    erewrite bind_ok by reflexivity.
    unfold _extract_system_template. rewrite Hpaths.
    erewrite bind_ok by (apply extract_from_hit; eassumption).
    rewrite Htruthy.
    erewrite bind_ok by reflexivity. cbn [agent]. rewrite Hhas.
    erewrite bind_ok by (apply read_system_template_ok; exact Horiginal).
    erewrite bind_ok
      by (apply assign_system_template_ok with original; exact Horiginal).
    erewrite bind_ok by reflexivity.
    erewrite bind_ok by reflexivity.
    unfold lift. erewrite bind_ok by (rewrite Hlen; reflexivity).
    flatten_trace.
  - unfold try_except.
    erewrite bind_ok by reflexivity.
    erewrite bind_ok by reflexivity.
    unfold _extract_system_template. rewrite Hpaths.
    erewrite bind_ok by (apply extract_from_hit; eassumption).
    rewrite Htruthy.
    erewrite bind_ok by reflexivity. cbn [agent]. rewrite Hhas.
    erewrite bind_ok by (apply read_system_template_ok; exact Horiginal).
    erewrite bind_ok
      by (apply assign_system_template_ok with original; exact Horiginal).
    erewrite bind_ok by reflexivity.
    erewrite bind_ok by reflexivity.
    unfold lift. erewrite bind_raise by (rewrite Hlen; reflexivity).
    cbn [Exception]. flatten_trace.
Qed.

Lemma on_init_absent_steps (fs : filesystem) (w : world) :
  fs (template_file_of (hook w)) = FileAbsent ->
  on_init fs w
  = (Ok tt,
     World (hook w) (agent w)
       (trace w ++ [Log INFO (NoTemplateFile (instance_id (hook w))
                                (template_file_of (hook w)))])).
Proof. intros Hfs. enter_on_init Hfs. reflexivity. Qed.

Lemma on_init_load_failure_steps (fs : filesystem) (w : world) (e : exn) :
  fs (template_file_of (hook w)) = FileFails e ->
  on_init fs w
  = (Ok tt,
     World (hook w) (agent w)
       (trace w ++ [Log INFO (LoadingTemplate (instance_id (hook w))
                                (template_file_of (hook w)));
                    Log ERROR (LoadError (instance_id (hook w)) e)])).
Proof.
  intros Hfs. enter_on_init Hfs. unfold try_except.
  erewrite bind_ok by reflexivity.
  erewrite bind_raise by reflexivity.
  cbn [Exception]. flatten_trace.
Qed.

Lemma on_init_no_value_steps (fs : filesystem) (w : world)
    (document : pyobj) :
  fs (template_file_of (hook w)) = FileLoads document ->
  Forall (misses document) paths_to_try ->
  on_init fs w
  = (Ok tt,
     World (hook w) (agent w)
       (trace w ++ [Log INFO (LoadingTemplate (instance_id (hook w))
                                (template_file_of (hook w)));
                    Log DEBUG NotFoundAnywhere;
                    Log WARNING (NoValidTemplate
                                   (template_file_of (hook w)))])).
Proof.
  intros Hfs Hmiss. enter_on_init Hfs. apply try_except_ok.
  erewrite bind_ok by reflexivity.
  erewrite bind_ok by reflexivity.
  unfold _extract_system_template.
  erewrite bind_ok by (apply extract_from_all_miss; exact Hmiss).
  cbn [PyStr.truthy]. flatten_trace.
Qed.

Lemma on_init_no_attribute_steps (fs : filesystem) (w : world)
    (document : pyobj) (before after : list (list PyStr.t))
    (keys : list PyStr.t) (s : PyStr.t) :
  paths_to_try = before ++ keys :: after ->
  Forall (misses document) before ->
  yields document keys s ->
  fs (template_file_of (hook w)) = FileLoads document ->
  template_of (agent w) = None ->
  on_init fs w
  = (Ok tt,
     World (hook w) (agent w)
       (trace w ++ [Log INFO (LoadingTemplate (instance_id (hook w))
                                (template_file_of (hook w)));
                    Log DEBUG (FoundAtPath keys);
                    Log WARNING NoTemplatesAttribute])).
Proof.
  intros Hpaths Hbefore Hyields Hfs Hnone.
  assert (Htruthy : PyStr.truthy (PyStr.strip s) = true)
    by (apply truthy_nonempty, Hyields).
  enter_on_init Hfs. apply try_except_ok.
  erewrite bind_ok by reflexivity.
  erewrite bind_ok by reflexivity.
  unfold _extract_system_template. rewrite Hpaths.
  erewrite bind_ok by (apply extract_from_hit; eassumption).
  rewrite Htruthy.
  erewrite bind_ok by reflexivity. cbn [agent].
  rewrite (has_system_template_none _ Hnone). flatten_trace.
Qed.

(** X7. When the override is applied over a value that has a length, what
    [on_init] does is, in this order: the INFO record that loading starts,
    the DEBUG record naming the key-path that won, the assignment, the INFO
    record of success, and a DEBUG record with the length of the value
    replaced and the length of the new one.  Nothing else changes but
    [template_loaded]. *)
Theorem on_init_success_log (fs : filesystem) (w : world) (document : pyobj)
    (before after : list (list PyStr.t)) (keys : list PyStr.t)
    (s : PyStr.t) (original : pyobj) (n : nat) :
  paths_to_try = before ++ keys :: after ->
  Forall (misses document) before ->
  yields document keys s ->
  fs (template_file_of (hook w)) = FileLoads document ->
  template_of (agent w) = Some original ->
  py_len original = Ok n ->
  on_init fs w
  = (Ok tt,
     World (Hook (instance_id (hook w)) (instance_templates_dir (hook w)) true)
           (MkAgent (Some (Templates (Some (PStr (PyStr.strip s))))))
           (trace w
            ++ [ Log INFO (LoadingTemplate (instance_id (hook w))
                             (template_file_of (hook w)));
                 Log DEBUG (FoundAtPath keys);
                 Assign (PyStr.strip s);
                 Log INFO (TemplateApplied (instance_id (hook w)));
                 Log DEBUG (TemplateLengths n (length (PyStr.strip s))) ])).
Proof.
  intros Hpaths Hbefore Hyields Hfs Horiginal Hlen.
  rewrite (on_init_success_steps fs w after Hpaths Hbefore Hyields Hfs
             Horiginal).
  now rewrite Hlen.
Qed.

Lemma on_init_success_log_witness :
  on_init (Scenario.single_file Scenario.task_42_yaml
             (FileLoads Scenario.reviewer))
          (Scenario.start Scenario.default_agent)
  = (Ok tt,
     World (Hook (str "task-42") (str "instance_templates") true)
           (MkAgent (Some (Templates (Some (PStr
              (PyStr.strip (str "  You are a careful reviewer. ")))))))
           ([] ++ [ Log INFO (LoadingTemplate (str "task-42")
                               (template_file_of Scenario.task_42));
                    Log DEBUG (FoundAtPath
                                 [str "templates"; str "system_template"]);
                    Assign (PyStr.strip
                              (str "  You are a careful reviewer. "));
                    Log INFO (TemplateApplied (str "task-42"));
                    Log DEBUG (TemplateLengths 7
                      (length (PyStr.strip
                                 (str "  You are a careful reviewer. ")))) ])).
Proof.
  apply (@on_init_success_log
           (Scenario.single_file Scenario.task_42_yaml
              (FileLoads Scenario.reviewer))
           (Scenario.start Scenario.default_agent)
           Scenario.reviewer
           [[str "agent"; str "templates"; str "system_template"]]
           [[str "system_template"]; [str "agent"; str "system_template"]]
           [str "templates"; str "system_template"]
           (str "  You are a careful reviewer. ")
           (PStr (str "default")) 7).
  - reflexivity.
  - constructor; [|constructor]. intros s [Hd _]. vm_compute in Hd.
    discriminate.
  - split; [reflexivity|]. vm_compute. discriminate.
  - reflexivity.
  - reflexivity.
  - reflexivity.
Defined.

(** X8. The assignment comes before the lengths are measured: when the
    value being replaced has no length, [len] raises after the override is
    in place, so [on_init] ends with the override applied,
    [template_loaded] true, and an ERROR record carrying that exception in
    place of the DEBUG record. *)
Theorem on_init_assigns_before_measuring (fs : filesystem) (w : world)
    (document : pyobj) (before after : list (list PyStr.t))
    (keys : list PyStr.t) (s : PyStr.t) (original : pyobj) (e : exn) :
  paths_to_try = before ++ keys :: after ->
  Forall (misses document) before ->
  yields document keys s ->
  fs (template_file_of (hook w)) = FileLoads document ->
  template_of (agent w) = Some original ->
  py_len original = Raise e ->
  on_init fs w
  = (Ok tt,
     World (Hook (instance_id (hook w)) (instance_templates_dir (hook w)) true)
           (MkAgent (Some (Templates (Some (PStr (PyStr.strip s))))))
           (trace w
            ++ [ Log INFO (LoadingTemplate (instance_id (hook w))
                             (template_file_of (hook w)));
                 Log DEBUG (FoundAtPath keys);
                 Assign (PyStr.strip s);
                 Log INFO (TemplateApplied (instance_id (hook w)));
                 Log ERROR (LoadError (instance_id (hook w)) e) ])).
Proof.
  intros Hpaths Hbefore Hyields Hfs Horiginal Hlen.
  rewrite (on_init_success_steps fs w after Hpaths Hbefore Hyields Hfs
             Horiginal).
  now rewrite Hlen.
Qed.

Lemma on_init_assigns_before_measuring_witness :
  on_init (Scenario.single_file Scenario.task_42_yaml
             (FileLoads Scenario.terse))
          (Scenario.start (MkAgent (Some (Templates (Some (PInt 0))))))
  = (Ok tt,
     World (Hook (str "task-42") (str "instance_templates") true)
           (MkAgent (Some (Templates (Some (PStr
              (PyStr.strip (str "Be terse.")))))))
           ([] ++ [ Log INFO (LoadingTemplate (str "task-42")
                               (template_file_of Scenario.task_42));
                    Log DEBUG (FoundAtPath [str "system_template"]);
                    Assign (PyStr.strip (str "Be terse."));
                    Log INFO (TemplateApplied (str "task-42"));
                    Log ERROR (LoadError (str "task-42") TypeError) ])).
Proof.
  apply (@on_init_assigns_before_measuring
           (Scenario.single_file Scenario.task_42_yaml
              (FileLoads Scenario.terse))
           (Scenario.start (MkAgent (Some (Templates (Some (PInt 0))))))
           Scenario.terse
           [[str "agent"; str "templates"; str "system_template"];
            [str "templates"; str "system_template"]]
           [[str "agent"; str "system_template"]]
           [str "system_template"]
           (str "Be terse.") (PInt 0) TypeError).
  - reflexivity.
  - repeat constructor; intros s [Hd _]; vm_compute in Hd; discriminate.
  - split; [reflexivity|]. vm_compute. discriminate.
  - reflexivity.
  - reflexivity.
  - reflexivity.
Defined.

(** X9. Each way of ending without an override changes neither the hook
    nor the agent and has its own log.  When [template_file.exists()]
    raises, the exception reaches the caller and nothing is logged.  When it
    answers false, there is one INFO record and no attempt to load.  A file
    that fails to load gives an ERROR record carrying the exception; a
    document without a usable value gives a WARNING naming the file; a
    usable value for an agent without the attribute path gives a WARNING
    that the agent has no such attribute. *)
Theorem on_init_failure_log (fs : filesystem) (w : world) :
  (forall e,
      fs (template_file_of (hook w)) = StatFails e ->
      on_init fs w = (Raise e, w))
  /\ (fs (template_file_of (hook w)) = FileAbsent ->
      on_init fs w
      = (Ok tt,
         World (hook w) (agent w)
           (trace w ++ [Log INFO (NoTemplateFile (instance_id (hook w))
                                    (template_file_of (hook w)))])))
  /\ (forall e,
      fs (template_file_of (hook w)) = FileFails e ->
      on_init fs w
      = (Ok tt,
         World (hook w) (agent w)
           (trace w ++ [Log INFO (LoadingTemplate (instance_id (hook w))
                                    (template_file_of (hook w)));
                        Log ERROR (LoadError (instance_id (hook w)) e)])))
  /\ (forall document,
      fs (template_file_of (hook w)) = FileLoads document ->
      Forall (misses document) paths_to_try ->
      on_init fs w
      = (Ok tt,
         World (hook w) (agent w)
           (trace w ++ [Log INFO (LoadingTemplate (instance_id (hook w))
                                    (template_file_of (hook w)));
                        Log DEBUG NotFoundAnywhere;
                        Log WARNING (NoValidTemplate
                                       (template_file_of (hook w)))])))
  /\ (forall document before keys after s,
      paths_to_try = before ++ keys :: after ->
      Forall (misses document) before ->
      yields document keys s ->
      fs (template_file_of (hook w)) = FileLoads document ->
      template_of (agent w) = None ->
      on_init fs w
      = (Ok tt,
         World (hook w) (agent w)
           (trace w ++ [Log INFO (LoadingTemplate (instance_id (hook w))
                                    (template_file_of (hook w)));
                        Log DEBUG (FoundAtPath keys);
                        Log WARNING NoTemplatesAttribute]))).
Proof.
  split; [intros e; apply on_init_stat_steps|].
  split; [apply on_init_absent_steps|].
  split; [intros e; apply on_init_load_failure_steps|].
  split; [intros document; apply on_init_no_value_steps|].
  intros document before keys after s. apply on_init_no_attribute_steps.
Qed.

Lemma on_init_failure_log_witness :
  on_init (Scenario.single_file Scenario.task_42_yaml (StatFails OSError))
          (Scenario.start Scenario.default_agent)
  = (Raise OSError, Scenario.start Scenario.default_agent)
  /\ on_init Scenario.no_files (Scenario.start Scenario.default_agent)
     = (Ok tt,
        World Scenario.task_42 Scenario.default_agent
          ([] ++ [Log INFO (NoTemplateFile (str "task-42")
                              (template_file_of Scenario.task_42))]))
  /\ on_init (Scenario.single_file Scenario.task_42_yaml
                (FileFails UnicodeDecodeError))
             (Scenario.start Scenario.default_agent)
     = (Ok tt,
        World Scenario.task_42 Scenario.default_agent
          ([] ++ [Log INFO (LoadingTemplate (str "task-42")
                              (template_file_of Scenario.task_42));
                  Log ERROR (LoadError (str "task-42") UnicodeDecodeError)]))
  /\ on_init (Scenario.single_file Scenario.task_42_yaml
                (FileLoads (PList [PStr (str "system_template")])))
             (Scenario.start Scenario.default_agent)
     = (Ok tt,
        World Scenario.task_42 Scenario.default_agent
          ([] ++ [Log INFO (LoadingTemplate (str "task-42")
                              (template_file_of Scenario.task_42));
                  Log DEBUG NotFoundAnywhere;
                  Log WARNING (NoValidTemplate
                                 (template_file_of Scenario.task_42))]))
  /\ on_init (Scenario.single_file Scenario.task_42_yaml
                (FileLoads Scenario.terse))
             (Scenario.start Scenario.bare_agent)
     = (Ok tt,
        World Scenario.task_42 Scenario.bare_agent
          ([] ++ [Log INFO (LoadingTemplate (str "task-42")
                              (template_file_of Scenario.task_42));
                  Log DEBUG (FoundAtPath [str "system_template"]);
                  Log WARNING NoTemplatesAttribute])).
Proof.
  split; [|split; [|split; [|split]]].
  - apply (proj1 (on_init_failure_log
                    (Scenario.single_file Scenario.task_42_yaml
                       (StatFails OSError))
                    (Scenario.start Scenario.default_agent))).
    reflexivity.
  - apply (proj1 (proj2 (on_init_failure_log Scenario.no_files
                           (Scenario.start Scenario.default_agent)))).
    reflexivity.
  - apply (proj1 (proj2 (proj2 (on_init_failure_log
                           (Scenario.single_file Scenario.task_42_yaml
                              (FileFails UnicodeDecodeError))
                           (Scenario.start Scenario.default_agent))))).
    reflexivity.
  - apply (proj1 (proj2 (proj2 (proj2 (on_init_failure_log
                           (Scenario.single_file Scenario.task_42_yaml
                              (FileLoads (PList [PStr (str "system_template")])))
                           (Scenario.start Scenario.default_agent)))))
             (PList [PStr (str "system_template")])).
    + reflexivity.
    + repeat constructor; intros s [Hd _]; vm_compute in Hd; discriminate.
  - apply (proj2 (proj2 (proj2 (proj2 (on_init_failure_log
                           (Scenario.single_file Scenario.task_42_yaml
                              (FileLoads Scenario.terse))
                           (Scenario.start Scenario.bare_agent)))))
             Scenario.terse
             [[str "agent"; str "templates"; str "system_template"];
              [str "templates"; str "system_template"]]
             [str "system_template"]
             [[str "agent"; str "system_template"]]
             (str "Be terse.")).
    + reflexivity.
    + repeat constructor; intros s [Hd _]; vm_compute in Hd; discriminate.
    + split; [reflexivity|]. vm_compute. discriminate.
    + reflexivity.
    + reflexivity.
Defined.

(* ===================================================================== *)
(** * Further properties: what [on_init] reads and writes *)
(* ===================================================================== *)

(** X10. [on_init] reads no file but the hook's own: two file systems that
    agree on [<instance_templates_dir>/<instance_id>.yaml] give the same
    result, the same world and the same log. *)
Theorem on_init_reads_own_file (fs fs' : filesystem) (w : world) :
  fs (template_file_of (hook w)) = fs' (template_file_of (hook w)) ->
  on_init fs w = on_init fs' w.
Proof.
  intros H. unfold on_init.
  erewrite !bind_ok by reflexivity. cbv zeta.
  unfold file_exists, load_yaml. now rewrite H.
Qed.

Lemma on_init_reads_own_file_witness :
  on_init (Scenario.single_file Scenario.task_42_yaml
             (FileLoads Scenario.terse))
          (Scenario.start Scenario.default_agent)
  = on_init (fun p =>
               if Scenario.path_eqb p Scenario.task_42_yaml
               then FileLoads Scenario.terse
               else FileLoads Scenario.reviewer)
            (Scenario.start Scenario.default_agent).
Proof.
  apply on_init_reads_own_file. reflexivity.
Defined.

(** One callback: either nothing was assigned and hook and agent are as
    before, or one value was and it is the agent's template, with the flag
    true.  The hook's identifier and directory never change. *)
Lemma invoke_effect (c : call) (w : world) :
  exists w' t, invoke c w = (run_result (template_file_of (hook w)) [c], w')
    /\ trace w' = trace w ++ t
    /\ instance_id (hook w') = instance_id (hook w)
    /\ instance_templates_dir (hook w') = instance_templates_dir (hook w)
    /\ ((assignments t = [] /\ agent w' = agent w /\ hook w' = hook w)
        \/ (exists v, assignments t = [v]
              /\ template_of (agent w') = Some (PStr v)
              /\ template_loaded (hook w') = true)).
Proof.
  destruct c as [fs|messages id].
  - rewrite <- on_init_result_run. cbn [invoke].
    destruct (on_init_spec fs w) as (w' & Hrun & Hpost).
    destruct (override_for fs w) as [s|].
    + destruct Hpost as (Hl & Hid & Hdir & Ha & t & Ht & Hn).
      exists w', t. repeat split; trivial. right. eauto.
    + destruct Hpost as (Hh & Ha & t & Ht & Hn).
      exists w', t. rewrite Hh. repeat split; trivial. left. auto.
  - destruct (on_model_query_spec messages id w)
      as (w' & Hrun & Hh & Ha & t & Ht & Hn).
    exists w', t. rewrite Hh. repeat split; trivial. left. auto.
Qed.

Lemma last_assigned_app (t1 t2 : list effect) :
  last_assigned (t1 ++ t2)
  = match last_assigned t2 with
    | Some v => Some v
    | None => last_assigned t1
    end.
Proof.
  unfold last_assigned. rewrite assignments_app, rev_app_distr.
  now destruct (rev (assignments t2)).
Qed.

Lemma last_assigned_none (t : list effect) :
  last_assigned t = None -> assignments t = [].
Proof.
  unfold last_assigned. intros H.
  destruct (rev (assignments t)) eqn:Hr; [|discriminate].
  apply (f_equal (@rev PyStr.t)) in Hr. now rewrite rev_involutive in Hr.
Qed.

(** X11. Over any sequence of callbacks, however it ends, the hook keeps
    its instance identifier and its directory, so every [on_init] of the
    sequence looks for the same file. *)
Theorem run_keeps_identity (calls : list call) (w : world) :
  exists r w', run calls w = (r, w')
    /\ instance_id (hook w') = instance_id (hook w)
    /\ instance_templates_dir (hook w') = instance_templates_dir (hook w)
    /\ template_file_of (hook w') = template_file_of (hook w).
Proof.
  revert w. induction calls as [|c rest IH]; intros w.
  - now exists (Ok tt), w.
  - destruct (invoke_effect c w) as (w1 & t & Hrun & _ & Hid & Hdir & _).
    rewrite (@run_cons c rest w w1 _ Hrun).
    destruct (run_result (template_file_of (hook w)) [c]) as [[]|e].
    + destruct (IH w1) as (r & w2 & Hrun2 & Hid2 & Hdir2 & _).
      exists r, w2. split; [exact Hrun2|]. unfold template_file_of.
      rewrite Hid2, Hdir2, Hid, Hdir. auto.
    + exists (Raise e), w1. split; [reflexivity|]. unfold template_file_of.
      rewrite Hid, Hdir. auto.
Qed.

(** X12. After any sequence of callbacks, the agent's template is the last
    value the sequence assigned and [template_loaded] is true; when the
    sequence assigned nothing, the agent and the hook are exactly as they
    were. *)
Theorem run_leaves_last_assignment (calls : list call) (w : world) :
  exists w' t,
    run calls w = (run_result (template_file_of (hook w)) calls, w')
    /\ trace w' = trace w ++ t
    /\ match last_assigned t with
       | Some v => template_of (agent w') = Some (PStr v)
                   /\ template_loaded (hook w') = true
       | None => agent w' = agent w /\ hook w' = hook w
       end.
Proof.
  revert w. induction calls as [|c rest IH]; intros w.
  - exists w, []. rewrite app_nil_r. now repeat split.
  - destruct (invoke_effect c w)
      as (w1 & t1 & Hrun & Ht & Hid & Hdir & Hstep).
    assert (Hfile : template_file_of (hook w1) = template_file_of (hook w))
      by (unfold template_file_of; now rewrite Hid, Hdir).
    assert (Hone : match last_assigned t1 with
                   | Some v => template_of (agent w1) = Some (PStr v)
                               /\ template_loaded (hook w1) = true
                   | None => agent w1 = agent w /\ hook w1 = hook w
                   end).
    { unfold last_assigned.
      destruct Hstep as [(Hn & Ha & Hh)|(v & Hn & Htemplate & Hflag)];
        rewrite Hn; simpl; auto. }
    rewrite (@run_cons c rest w w1 _ Hrun),
      (run_result_cons (template_file_of (hook w)) c rest).
    destruct (run_result (template_file_of (hook w)) [c]) as [[]|e].
    + destruct (IH w1) as (w2 & t2 & Hrun2 & Ht2 & Hlast).
      rewrite Hfile in Hrun2.
      exists w2, (t1 ++ t2).
      split; [exact Hrun2|]. split; [now rewrite Ht2, Ht, app_assoc|].
      rewrite last_assigned_app.
      destruct (last_assigned t2) as [v|]; [exact Hlast|].
      destruct Hlast as [Ha2 Hh2]. now rewrite Ha2, Hh2.
    + exists w1, t1. split; [reflexivity|]. split; [exact Ht|exact Hone].
Qed.

(** X13. Whatever [on_init] assigns comes from the hook's file: the value
    is a string found in the loaded document at one of the four key-paths,
    less whitespace at its two ends. *)
Theorem on_init_assigns_from_file (fs : filesystem) (w : world) :
  exists w' t, on_init fs w = (on_init_result fs w, w')
    /\ trace w' = trace w ++ t
    /\ Forall (fun v =>
         exists document keys s leading trailing,
           fs (template_file_of (hook w)) = FileLoads document
           /\ In keys paths_to_try
           /\ descend document keys = Ok (PStr s)
           /\ s = leading ++ v ++ trailing
           /\ PyStr.whitespace_only leading = true
           /\ PyStr.whitespace_only trailing = true)
         (assignments t).
Proof.
  destruct (on_init_spec fs w) as (w' & Hrun & Hpost).
  destruct (override_for fs w) as [r|] eqn:Hover.
  - destruct Hpost as (_ & _ & _ & _ & t & Ht & Hn).
    exists w', t. rewrite Hn. repeat split; trivial.
    constructor; [|constructor].
    unfold override_for in Hover.
    destruct (fs (template_file_of (hook w))) as [e0| |document|e];
      try discriminate.
    destruct (has_system_template (agent w)); try discriminate.
    destruct (first_usable_inv _ _ Hover) as (keys & s & Hin & [Hd _] & ->).
    destruct (strip_decompose s) as (leading & trailing & Hs & Hl & Hr).
    exists document, keys, s, leading, trailing. auto 10.
  - destruct Hpost as (_ & _ & t & Ht & Hn).
    exists w', t. rewrite Hn. repeat split; trivial.
Qed.

(** X14. Each of the four shapes a template file may take works on its
    own: a document that nests a string with a non-whitespace character
    along one of the four key-paths, and holds nothing else, makes [on_init]
    set the agent's template to that string stripped. *)
Theorem on_init_accepts_each_shape (fs : filesystem) (w : world)
    (keys : list PyStr.t) (s : PyStr.t) (original : pyobj) :
  In keys paths_to_try ->
  PyStr.whitespace_only s = false ->
  fs (template_file_of (hook w)) = FileLoads (nest keys (PStr s)) ->
  template_of (agent w) = Some original ->
  exists w', on_init fs w = (Ok tt, w')
    /\ template_of (agent w') = Some (PStr (PyStr.strip s))
    /\ template_loaded (hook w') = true.
Proof.
  intros Hin Hws Hfs Horiginal.
  assert (Hy : yields (nest keys (PStr s)) keys s).
  { split; [apply descend_nest_leaf|]. intros H.
    apply strip_empty_iff in H. congruence. }
  assert (Hsplit : exists before after,
             paths_to_try = before ++ keys :: after
             /\ Forall (misses (nest keys (PStr s))) before).
  { unfold paths_to_try in *. simpl in Hin.
    destruct Hin as [<-|[<-|[<-|[<-|[]]]]].
    - exists [], [[str "templates"; str "system_template"];
                  [str "system_template"];
                  [str "agent"; str "system_template"]].
      split; [reflexivity|constructor].
    - exists [[str "agent"; str "templates"; str "system_template"]],
             [[str "system_template"]; [str "agent"; str "system_template"]].
      split; [reflexivity|].
      repeat constructor; intros s' [Hd _]; vm_compute in Hd; discriminate.
    - exists [[str "agent"; str "templates"; str "system_template"];
              [str "templates"; str "system_template"]],
             [[str "agent"; str "system_template"]].
      split; [reflexivity|].
      repeat constructor; intros s' [Hd _]; vm_compute in Hd; discriminate.
    - exists [[str "agent"; str "templates"; str "system_template"];
              [str "templates"; str "system_template"];
              [str "system_template"]], [].
      split; [reflexivity|].
      repeat constructor; intros s' [Hd _]; vm_compute in Hd; discriminate. }
  destruct Hsplit as (before & after & Hpaths & Hbefore).
  rewrite (on_init_success_steps fs w after Hpaths Hbefore Hy Hfs Horiginal).
  eexists. split; [reflexivity|]. split; reflexivity.
Qed.

Lemma on_init_accepts_each_shape_witness :
  exists w',
    on_init (Scenario.single_file Scenario.task_42_yaml
               (FileLoads (nest [str "agent"; str "system_template"]
                             (PStr (str " Be terse. ")))))
            (Scenario.start Scenario.default_agent) = (Ok tt, w')
    /\ template_of (agent w') = Some (PStr (PyStr.strip (str " Be terse. ")))
    /\ template_loaded (hook w') = true.
Proof.
  apply (@on_init_accepts_each_shape
           (Scenario.single_file Scenario.task_42_yaml
              (FileLoads (nest [str "agent"; str "system_template"]
                            (PStr (str " Be terse. ")))))
           (Scenario.start Scenario.default_agent)
           [str "agent"; str "system_template"] (str " Be terse. ")
           (PStr (str "default"))).
  - simpl. auto.
  - reflexivity.
  - reflexivity.
  - reflexivity.
Defined.

(* ===================================================================== *)
(** * Further properties: the two callbacks together *)
(* ===================================================================== *)

(** [on_init] never writes the record of [on_model_query]. *)
Lemma on_init_no_using_record (fs : filesystem) (w : world) :
  exists w' t, on_init fs w = (on_init_result fs w, w')
    /\ trace w' = trace w ++ t
    /\ existsb is_using_record t = false.
Proof.
  unfold on_init_result.
  destruct (fs (template_file_of (hook w))) as [e0| |document|e] eqn:Hfs.
  - rewrite (@on_init_stat_steps fs w e0 Hfs).
    exists w, []. rewrite app_nil_r. repeat split.
  - rewrite (@on_init_absent_steps fs w Hfs).
    eexists _, _. repeat split.
  - destruct (paths_cases paths_to_try document)
      as [Hall|(before & keys & after & s & Hpaths & Hbefore & Hy)].
    + rewrite (@on_init_no_value_steps fs w document Hfs Hall).
      eexists _, _. repeat split.
    + destruct (template_of (agent w)) as [original|] eqn:Horiginal.
      * rewrite (@on_init_success_steps fs w document before after keys s
                   original Hpaths Hbefore Hy Hfs Horiginal).
        eexists _, _. split; [reflexivity|]. split; [reflexivity|].
        now destruct (py_len original).
      * rewrite (@on_init_no_attribute_steps fs w document before after keys
                   s Hpaths Hbefore Hy Hfs Horiginal).
        eexists _, _. repeat split.
  - rewrite (@on_init_load_failure_steps fs w e Hfs).
    eexists _, _. repeat split.
Qed.

(** One callback, seen from the log: the record of [on_model_query] is
    written only with the flag already true, and the flag is true afterwards
    only if it was or a value was assigned. *)
Lemma invoke_using (c : call) (w : world) :
  exists w' t, invoke c w = (run_result (template_file_of (hook w)) [c], w')
    /\ trace w' = trace w ++ t
    /\ (existsb is_using_record t = true -> template_loaded (hook w) = true)
    /\ (template_loaded (hook w') = true ->
        template_loaded (hook w) = true \/ assignments t <> [])
    /\ template_file_of (hook w') = template_file_of (hook w).
Proof.
  destruct c as [fs|messages id].
  - rewrite <- on_init_result_run. cbn [invoke].
    destruct (on_init_no_using_record fs w) as (w' & t & Hrun & Ht & Hno).
    exists w', t. split; [exact Hrun|]. split; [exact Ht|].
    split; [congruence|].
    destruct (on_init_spec fs w) as (w'' & Hrun' & Hpost).
    rewrite Hrun in Hrun'. injection Hrun' as <-.
    destruct (override_for fs w) as [s|].
    + pose proof (applied_file Hpost) as Hfile.
      destruct Hpost as (_ & _ & _ & _ & t' & Ht' & Hn).
      rewrite Ht in Ht'. apply app_inv_head in Ht'. subst t'.
      split; [|exact Hfile]. intros _. right. rewrite Hn. discriminate.
    + destruct Hpost as (Hh & _). rewrite Hh. auto.
  - simpl. unfold on_model_query. erewrite bind_ok by reflexivity.
    destruct (template_loaded (hook w)) eqn:Hflag; cbn [andb].
    + destruct (length messages =? 1)%nat.
      * eexists _, _. split; [reflexivity|]. split; [reflexivity|].
        auto 10.
      * exists w, []. rewrite app_nil_r. repeat split; auto.
    + exists w, []. rewrite app_nil_r. repeat split; auto.
      intros H. congruence.
Qed.

Lemma existsb_using_split (t1 t2 : list effect) (e : effect) :
  is_using_record e = true -> existsb is_using_record (t1 ++ e :: t2) = true.
Proof.
  intros He. rewrite existsb_app. simpl. rewrite He.
  now rewrite orb_true_r.
Qed.

Lemma run_using (calls : list call) (w : world) :
  exists w' t,
    run calls w = (run_result (template_file_of (hook w)) calls, w')
    /\ trace w' = trace w ++ t
    /\ forall t1 e t2,
         t = t1 ++ e :: t2 -> is_using_record e = true ->
         template_loaded (hook w) = true \/ assignments t1 <> [].
Proof.
  revert w. induction calls as [|c rest IH]; intros w.
  - exists w, []. rewrite app_nil_r. repeat split.
    intros t1 e t2 H. now destruct t1.
  - destruct (invoke_using c w)
      as (w1 & tc & Hrun & Ht & Huse & Hflag & Hfile).
    rewrite (@run_cons c rest w w1 _ Hrun),
      (run_result_cons (template_file_of (hook w)) c rest).
    destruct (run_result (template_file_of (hook w)) [c]) as [[]|e0].
    + destruct (IH w1) as (w2 & tr & Hrun2 & Ht2 & Hrest).
      rewrite Hfile in Hrun2.
      exists w2, (tc ++ tr).
      split; [exact Hrun2|]. split; [now rewrite Ht2, Ht, app_assoc|].
      intros t1 e t2 Hsplit He.
      apply app_eq_app in Hsplit.
      destruct Hsplit as (l & [[Htc Hsuffix]|[Ht1 Htr]]).
      * destruct l as [|x l].
        -- rewrite app_nil_r in Htc. subst t1. simpl in Hsuffix.
           destruct (Hrest [] e t2 (eq_sym Hsuffix) He) as [H1|H1].
           ++ destruct (Hflag H1) as [H|H]; auto.
           ++ now destruct H1.
        -- injection Hsuffix as <- _. left. apply Huse.
           rewrite Htc. now apply existsb_using_split.
      * destruct (Hrest l e t2 Htr He) as [H1|H1].
        -- destruct (Hflag H1) as [H|H]; [auto|].
           right. rewrite Ht1, assignments_app. intros Happ.
           apply app_eq_nil in Happ. now destruct Happ.
        -- right. rewrite Ht1, assignments_app. intros Happ.
           apply app_eq_nil in Happ. now destruct Happ.
    + exists w1, tc. split; [reflexivity|]. split; [exact Ht|].
      intros t1 e t2 Hsplit He. left. apply Huse.
      rewrite Hsplit. now apply existsb_using_split.
Qed.

(** X15. The record of [on_model_query] tells the truth: in any sequence of
    callbacks on a hook that starts with [template_loaded] false, every
    "using the custom template" record comes after an assignment to the
    agent's template made earlier in the same sequence. *)
Theorem using_record_follows_assignment (calls : list call) (w : world) :
  template_loaded (hook w) = false ->
  exists w' t,
    run calls w = (run_result (template_file_of (hook w)) calls, w')
    /\ trace w' = trace w ++ t
    /\ forall t1 e t2,
         t = t1 ++ e :: t2 -> is_using_record e = true ->
         assignments t1 <> [].
Proof.
  intros Hfresh.
  destruct (run_using calls w) as (w' & t & Hrun & Ht & Huse).
  exists w', t. split; [exact Hrun|]. split; [exact Ht|].
  intros t1 e t2 Hsplit He.
  destruct (Huse t1 e t2 Hsplit He) as [H|H]; [congruence|exact H].
Qed.

Lemma using_record_follows_assignment_witness :
  exists w' t,
    run [ OnModelQuery [PNone] (str "task-42");
          OnInit (Scenario.single_file Scenario.task_42_yaml
                    (FileLoads Scenario.terse));
          OnModelQuery [PNone] (str "task-42") ]
        (Scenario.start Scenario.default_agent) = (Ok tt, w')
    /\ trace w' = [] ++ t
    /\ forall t1 e t2,
         t = t1 ++ e :: t2 -> is_using_record e = true ->
         assignments t1 <> [].
Proof.
  apply (@using_record_follows_assignment
           [ OnModelQuery [PNone] (str "task-42");
             OnInit (Scenario.single_file Scenario.task_42_yaml
                       (FileLoads Scenario.terse));
             OnModelQuery [PNone] (str "task-42") ]
           (Scenario.start Scenario.default_agent)).
  reflexivity.
Defined.

(* ===================================================================== *)
(** * Calling [on_init] again *)
(* ===================================================================== *)

(** C6. A second [on_init] on the same hook, with the file unchanged and the
    agent as the first call left it, applies again what the first call
    applied.  When the file holds a usable template and the agent has the
    attribute path, the first call assigns the stripped string and the
    second call assigns that same string once more, so the agent's template
    after the second call is its value after the first.  In general the
    second call makes the same assignments as the first (none, if the first
    made none) and leaves the agent's template and [template_loaded] at
    their values after the first call. *)
Theorem on_init_twice :
  (forall (fs : filesystem) (w : world) (document : pyobj)
          (before after : list (list PyStr.t)) (keys : list PyStr.t)
          (s : PyStr.t) (original : pyobj),
      paths_to_try = before ++ keys :: after ->
      Forall (misses document) before ->
      yields document keys s ->
      fs (template_file_of (hook w)) = FileLoads document ->
      template_of (agent w) = Some original ->
      exists w1 w2,
        on_init fs w = (Ok tt, w1)
        /\ on_init fs w1 = (Ok tt, w2)
        /\ assignments (trace w1)
           = assignments (trace w) ++ [PyStr.strip s]
        /\ assignments (trace w2)
           = assignments (trace w1) ++ [PyStr.strip s]
        /\ template_of (agent w1) = Some (PStr (PyStr.strip s))
        /\ template_of (agent w2) = template_of (agent w1)
        /\ template_loaded (hook w2) = true)
  /\ (forall (fs : filesystem) (w w1 : world) (t1 : list effect),
      on_init fs w = (Ok tt, w1) ->
      trace w1 = trace w ++ t1 ->
      exists w2 t2,
        on_init fs w1 = (Ok tt, w2)
        /\ trace w2 = trace w1 ++ t2
        /\ assignments t2 = assignments t1
        /\ template_of (agent w2) = template_of (agent w1)
        /\ template_loaded (hook w2) = template_loaded (hook w1)).
Proof.
  split.
  - intros fs w document before after keys s original
      Hpaths Hbefore Hyields Hfs Horiginal.
    pose proof (@on_init_success_steps fs w document before after keys s
                  original Hpaths Hbefore Hyields Hfs Horiginal) as Hfirst.
    match type of Hfirst with _ = (_, ?w1) =>
      pose proof (@on_init_success_steps fs w1 document before after keys s
                    (PStr (PyStr.strip s)) Hpaths Hbefore Hyields Hfs
                    eq_refl) as Hsecond
    end.
    eexists _, _. split; [exact Hfirst|]. split; [exact Hsecond|].
    cbn [trace agent hook template_of templates system_template
         template_loaded py_len].
    rewrite !assignments_app. cbn [assignments].
    destruct (py_len original); cbn [assignments app];
      rewrite ?app_nil_r; repeat split; reflexivity.
  - intros fs w w1 t1 Hfirst Ht1.
    destruct (on_init_spec fs w) as (w' & Hrun & Hpost).
    rewrite Hfirst in Hrun. injection Hrun as Hresult <-.
    destruct (on_init_spec fs w1) as (w2 & Hrun2 & Hpost2).
    assert (Hsame : override_for fs w = None ->
                    hook w1 = hook w /\ agent w1 = agent w).
    { intros H. rewrite H in Hpost. split; apply Hpost. }
    destruct (override_for fs w) as [s|] eqn:Hover.
    + pose proof (applied_file Hpost) as Hfile.
      destruct Hpost as (Hloaded & Hid & Hdir & Htemplate & t & Ht & Hn).
      rewrite Ht1 in Ht. apply app_inv_head in Ht. subst t.
      assert (Hhas1 : has_system_template (agent w1) = true)
        by (apply has_system_template_of; eauto).
      rewrite (override_for_ext fs w w1 Hid Hdir), Hover in Hpost2
        by (now rewrite (override_for_has _ _ Hover)).
      unfold on_init_result in Hrun2, Hresult. rewrite Hfile in Hrun2.
      rewrite <- Hresult in Hrun2.
      destruct Hpost2 as (Hloaded2 & _ & _ & Htemplate2 & t2 & Ht2 & Hn2).
      exists w2, t2. rewrite Hn, Hn2. repeat split; congruence.
    + destruct (Hsame eq_refl) as [Hh Ha].
      destruct Hpost as (_ & _ & t & Ht & Hn).
      rewrite Ht1 in Ht. apply app_inv_head in Ht. subst t.
      rewrite (override_for_ext fs w w1), Hover in Hpost2
        by (now rewrite ?Hh, ?Ha).
      unfold on_init_result in Hrun2, Hresult. rewrite Hh in Hrun2.
      rewrite <- Hresult in Hrun2.
      destruct Hpost2 as (Hh2 & Ha2 & t2 & Ht2 & Hn2).
      exists w2, t2. rewrite Hn, Hn2, Hh2, Ha2. repeat split; trivial.
Qed.

Lemma on_init_twice_witness :
  (exists w1 w2,
      on_init Scenario.reviewer_files
        (Scenario.start Scenario.default_agent) = (Ok tt, w1)
      /\ on_init Scenario.reviewer_files w1 = (Ok tt, w2)
      /\ assignments (trace w1)
         = assignments (trace (Scenario.start Scenario.default_agent))
           ++ [PyStr.strip (str "  You are a careful reviewer. ")]
      /\ assignments (trace w2)
         = assignments (trace w1)
           ++ [PyStr.strip (str "  You are a careful reviewer. ")]
      /\ template_of (agent w1)
         = Some (PStr (PyStr.strip (str "  You are a careful reviewer. ")))
      /\ template_of (agent w2) = template_of (agent w1)
      /\ template_loaded (hook w2) = true)
  /\ (exists w2 t2,
      on_init Scenario.no_files
        (snd (on_init Scenario.no_files
                (Scenario.start Scenario.default_agent))) = (Ok tt, w2)
      /\ trace w2
         = trace (snd (on_init Scenario.no_files
                         (Scenario.start Scenario.default_agent))) ++ t2
      /\ assignments t2
         = assignments
             (trace (snd (on_init Scenario.no_files
                            (Scenario.start Scenario.default_agent))))
      /\ template_of (agent w2)
         = template_of
             (agent (snd (on_init Scenario.no_files
                            (Scenario.start Scenario.default_agent))))
      /\ template_loaded (hook w2)
         = template_loaded
             (hook (snd (on_init Scenario.no_files
                           (Scenario.start Scenario.default_agent))))).
Proof.
  split.
  - apply (proj1 on_init_twice Scenario.reviewer_files
             (Scenario.start Scenario.default_agent)
             Scenario.reviewer
             [[str "agent"; str "templates"; str "system_template"]]
             [[str "system_template"]; [str "agent"; str "system_template"]]
             [str "templates"; str "system_template"]
             (str "  You are a careful reviewer. ")
             (PStr (str "default"))).
    + reflexivity.
    + constructor; [|constructor]. intros s [Hd _]. vm_compute in Hd.
      discriminate.
    + split; [reflexivity|]. vm_compute. discriminate.
    + reflexivity.
    + reflexivity.
  - apply (proj2 on_init_twice Scenario.no_files
             (Scenario.start Scenario.default_agent)).
    + reflexivity.
    + reflexivity.
Defined.
